(** * NOAA temperature data preparation: validation and aggregation flow

    A shallow embedding of [src/flow.py].  Python values are modelled as
    follows: [str] as [string], [int] as [Z], lists as [list], the S3
    bucket as a finite map from keys to objects, and a raised exception
    as the [Raise] outcome of a computation that also returns the state
    reached when the exception was raised. *)

From Stdlib Require Import ZArith List Lia Bool Ascii.
From stdpp Require Import gmap strings list fin_maps sorting pretty.

Local Open Scope string_scope.
Local Open Scope Z_scope.

(** ** Python exceptions and results *)

Inductive exn : Type :=
  | KeyError (key : string)
  | IndexError
  | ValueError (msg : string)
  | AttributeError
  | TypeError
  | UnboundLocalError (var : string)
  | NoSuchKey (key : string)
  | ClientError (code : string)
  | EmptyDataError
  | ParserError
  | OverflowError.

Inductive result (A : Type) : Type :=
  | Ok (a : A)
  | Raise (e : exn).
Arguments Ok {A} a.
Arguments Raise {A} e.

(** ** Python list primitives *)

Module Py.

(** Bound of a slice: negative bounds count from the end, and every
    bound is clamped to the list. *)
Definition clamp (len i : Z) : nat :=
  Z.to_nat (if i <? 0 then Z.max (i + len) 0 else Z.min i len).

(** [l[lo:hi]] *)
Definition slice {A} (l : list A) (lo hi : Z) : list A :=
  let len := Z.of_nat (length l) in
  let a := clamp len lo in
  let b := clamp len hi in
  take (b - a)%nat (drop a l).

(** [range(start, stop, step)]; a zero step raises. *)
Definition range (start stop step : Z) : result (list Z) :=
  if step =? 0 then Raise (ValueError "range() arg 3 must not be zero")
  else
    let n := if 0 <? step then (stop - start + step - 1) / step
             else (start - stop - step - 1) / (- step) in
    Ok (map (fun k => start + Z.of_nat k * step) (seq 0 (Z.to_nat n))).

End Py.

(** ** Batcher: [aws_lists_prep_for_map] *)

(** The inner generator [chunks], consumed by [list(...)]. *)
Definition chunks {A} (file_l : list A) (list_size : Z) : result (list (list A)) :=
  match Py.range 0 (Z.of_nat (length file_l)) list_size with
  | Raise e => Raise e
  | Ok starts => Ok (map (fun i => Py.slice file_l i (i + list_size)) starts)
  end.

Definition aws_lists_prep_for_map {A} (file_l : list (list A))
    (list_size total_processed : Z) : result (list (list A)) :=
  let file_l_consolidated := concat file_l in
  let file_l_consolidated := Py.slice file_l_consolidated 0 total_processed in
  chunks file_l_consolidated list_size.

(** ** Python string primitives *)

Module Str.

(** [len(s)]; keys are ASCII, so bytes and code points coincide. *)
Definition len (s : string) : Z := Z.of_nat (String.length s).

(** The newline character as a string. *)
Definition nl : string := String "010"%char EmptyString.

(** [s.split(sep)] for a one-character separator. *)
Fixpoint split (sep : ascii) (s : string) : list string :=
  match s with
  | EmptyString => [EmptyString]
  | String c s' =>
      if Ascii.eqb c sep then EmptyString :: split sep s'
      else match split sep s' with
           | h :: t => String c h :: t
           | [] => [String c EmptyString]
           end
  end.

(** [pat in s] *)
Fixpoint contains (pat s : string) : bool :=
  String.prefix pat s ||
  match s with
  | EmptyString => false
  | String _ s' => contains pat s'
  end.

(** The ASCII characters that [str.strip()] removes: tab to carriage
    return, the four separators 28 to 31, and the space. *)
Definition is_space (c : ascii) : bool :=
  let n := nat_of_ascii c in
  ((9 <=? n) && (n <=? 13) || (28 <=? n) && (n <=? 32))%nat.

Fixpoint lstrip (s : string) : string :=
  match s with
  | String c s' => if is_space c then lstrip s' else s
  | EmptyString => EmptyString
  end.

Fixpoint rstrip (s : string) : string :=
  match s with
  | String c s' =>
      match rstrip s' with
      | EmptyString => if is_space c then EmptyString else String c EmptyString
      | r => String c r
      end
  | EmptyString => EmptyString
  end.

(** [s.strip()] *)
Definition strip (s : string) : string := rstrip (lstrip s).

(** [s.count(c)] for a character. *)
Fixpoint count (c : ascii) (s : string) : nat :=
  match s with
  | EmptyString => 0
  | String a s' => ((if Ascii.eqb a c then 1 else 0) + count c s')%nat
  end.

End Str.

(** ** Data frames *)

(** A cell of a parsed column: a missing value, a [str] (object dtype),
    an [int64], or a finite [float64] [m * 2^e] in normal form. *)
Inductive cell : Type :=
  | NaN
  | Str (s : string)
  | Int (z : Z)
  | Float (m e : Z).

#[global] Instance cell_eq_dec : EqDecision cell.
Proof. solve_decision. Defined.

Definition Series : Type := list cell.

(** What [pd.read_csv] returns: labels are unique (duplicates in the
    header are renamed by the reader). *)
Definition DataFrame : Type := gmap string Series.

(** A frame whose labels were reassigned; labels may now repeat. *)
Definition Relabelled : Type := list (string * Series).

(** [records.columns = records.columns.str.strip()] *)
Definition strip_columns (records : DataFrame) : Relabelled :=
  map (fun p => (Str.strip (fst p), snd p)) (map_to_list records).

(** The value of [records[label]]: a column when the label occurs once,
    a sub-frame when it repeats. *)
Inductive selection : Type :=
  | OneSeries (s : Series)
  | SubFrame (cols : list Series).

Definition getitem (records : Relabelled) (label : string) : result selection :=
  match map snd (filter (fun p => fst p = label) records) with
  | [] => Raise (KeyError label)
  | [s] => Ok (OneSeries s)
  | cols => Ok (SubFrame cols)
  end.

(** [df1[label]] on a frame as read. *)
Definition getcol (df : DataFrame) (label : string) : result Series :=
  match df !! label with
  | Some s => Ok s
  | None => Raise (KeyError label)
  end.

(** [column.unique()]: distinct cells in order of first appearance;
    missing values count as one value. *)
Fixpoint unique_from (seen : list cell) (s : Series) : list cell :=
  match s with
  | [] => []
  | x :: s' =>
      if bool_decide (x ∈ seen) then unique_from seen s'
      else x :: unique_from (x :: seen) s'
  end.

Definition unique (s : Series) : list cell := unique_from [] s.

(** Element-wise [==]: a missing value equals nothing, itself included. *)
Definition cell_eq (a b : cell) : bool :=
  match a, b with
  | NaN, _ | _, NaN => false
  | _, _ => bool_decide (a = b)
  end.

(** [value == "X"] on a scalar taken from a column. *)
Definition eq_X (v : cell) : bool :=
  match v with
  | Str s => String.eqb s "X"
  | _ => false
  end.

(** ** External libraries

    The CSV reader, the numeric reductions and the text rendering of
    pandas, numpy and datetime are taken as an interface. *)

Class Lib : Type := {
  (** [pd.read_csv(data, dtype={c: str for c in dtype})] *)
  read_csv : list string -> string -> result DataFrame;
  (** the text an f-string gives for [column.mean()] *)
  mean : Series -> result string;
  (** the text an f-string gives for the array [column.unique()] *)
  array_str : list cell -> string;
  (** [t.strftime("%a, %d %b %Y %H:%M:%S %Z")] *)
  strftime : Z -> string
}.

#[global] Instance result_ret : MRet result := fun _ a => Ok a.
#[global] Instance result_bind : MBind result := fun _ _ f m =>
  match m with
  | Ok a => f a
  | Raise e => Raise e
  end.
#[global] Instance result_fmap : FMap result := fun _ _ f m =>
  match m with
  | Ok a => Ok (f a)
  | Raise e => Raise e
  end.

(** Python's truth value of a [str]-or-[None] result. *)
Definition truthy (v : option string) : bool :=
  match v with
  | Some s => negb (String.eqb s "")
  | None => false
  end.

Section Checks.
Context `{Lib}.

Definition spatial_dtype : list string :=
  ["FRSHTT"; "TEMP"; "LATITUDE"; "LONGITUDE"; "ELEVATION"; "DATE"].

Definition column_unique_values_check (column : selection) : result cell :=
  match column with
  | OneSeries s =>
      let value_l := unique s in
      if (1 <? length value_l)%nat then Ok (Str "X")
      else match value_l with
           | v :: _ => Ok v
           | [] => Raise IndexError
           end
  | SubFrame _ => Raise AttributeError
  end.

(** [not column.eq(column.iloc[0]).all()] *)
Definition not_all_eq_first (column : selection) : result bool :=
  match column with
  | OneSeries s =>
      match s with
      | first :: _ => Ok (negb (forallb (fun c => cell_eq c first) s))
      | [] => Raise IndexError
      end
  | SubFrame cols =>
      match cols with
      | [] :: _ => Raise IndexError
      | _ => Raise (ValueError "The truth value of a Series is ambiguous")
      end
  end.

(** The short-circuit [or] of the four tests, left to right. *)
Fixpoint any_column_differs (records : Relabelled) (labels : list string)
    : result bool :=
  match labels with
  | [] => Ok false
  | label :: rest =>
      column ← getitem records label;
      differs ← not_all_eq_first column;
      if differs : bool then Ok true else any_column_differs records rest
  end.

Definition csv_clean_spatial_check (filename data : string)
    : result (option string) :=
  records ← read_csv spatial_dtype data;
  let records := strip_columns records in
  differs ← any_column_differs records
              ["STATION"; "LATITUDE"; "LONGITUDE"; "ELEVATION"];
  if differs : bool then Ok (Some filename) else Ok None.

Definition unique_values_spatial_check_body (filename data : string)
    : result (option string) :=
  records ← read_csv spatial_dtype data;
  let records := strip_columns records in
  site_number ← getitem records "STATION" ≫= column_unique_values_check;
  latitude ← getitem records "LATITUDE" ≫= column_unique_values_check;
  longitude ← getitem records "LONGITUDE" ≫= column_unique_values_check;
  elevation ← getitem records "ELEVATION" ≫= column_unique_values_check;
  if eq_X site_number then Ok (Some filename)
  else if eq_X latitude then Ok (Some filename)
  else if eq_X longitude then Ok (Some filename)
  else if eq_X elevation then Ok (Some filename)
  else Ok None.

Definition unique_values_spatial_check (filename data : string)
    : result (option string) :=
  match unique_values_spatial_check_body filename data with
  | Raise EmptyDataError => Ok (Some "X")
  | Raise ParserError => Ok (Some "X")
  | r => r
  end.

End Checks.

(** ** The object store

    One bucket; timestamps are seconds since the epoch.  Every request
    sent to the store is recorded in [calls], oldest first; a multipart
    copy, whose requests come in no fixed number and order, is recorded
    as one [MultipartCopy].  The clock stands still during one call of a
    function of the flow; [elapse] moves it between calls. *)

Record s3_object : Type := {
  Body : string;
  LastModified : Z;
  Metadata : gmap string string
}.

Inductive s3_call : Type :=
  | GetObject (key : string)
  | PutObject (key : string)
  | CopyObject (src dst : string)
  | DeleteObject (key : string)
  | HeadObject (key : string)
  | ListObjectsV2 (prefix : string)
  | MultipartCopy (src dst : string).

Record world : Type := {
  bucket : gmap string s3_object;
  now : Z;
  calls : list s3_call
}.

(** A computation on the store: its outcome and the state it leaves,
    also when it raises. *)
Definition M (A : Type) : Type := world -> result A * world.

#[global] Instance M_ret : MRet M := fun _ a w => (Ok a, w).
#[global] Instance M_bind : MBind M := fun _ _ f m w =>
  match m w with
  | (Ok a, w') => f a w'
  | (Raise e, w') => (Raise e, w')
  end.

Definition raise {A} (e : exn) : M A := fun w => (Raise e, w).

Definition lift {A} (r : result A) : M A := fun w => (r, w).

(** [try: body except ...: handler]; [handler e = None] when no clause
    matches [e]. *)
Definition try_except {A} (body : M A) (handler : exn -> option (M A)) : M A :=
  fun w =>
    match body w with
    | (Ok a, w') => (Ok a, w')
    | (Raise e, w') =>
        match handler e with
        | Some h => h w'
        | None => (Raise e, w')
        end
    end.

Definition record (c : s3_call) (b : gmap string s3_object) (w : world) : world :=
  {| bucket := b; now := now w; calls := calls w ++ [c] |}.

Module S3.

Definition page_size : nat := 1000.

(** One page of a listing: its ["Contents"] entry, absent when the
    page holds no object; each entry gives ["Key"] and ["LastModified"]. *)
Definition page : Type := option (list (string * Z)).

Definition get_object (key : string) : M string := fun w =>
  let w' := record (GetObject key) (bucket w) w in
  match bucket w !! key with
  | Some o => (Ok (Body o), w')
  | None => (Raise (NoSuchKey key), w')
  end.

Definition put_object (key body : string) : M unit := fun w =>
  let o := {| Body := body; LastModified := now w; Metadata := ∅ |} in
  (Ok tt, record (PutObject key) (<[key := o]> (bucket w)) w).

(** The size from which a managed copy is done in parts. *)
Definition multipart_threshold : Z := 8388608.

Definition in_parts (o : s3_object) : bool :=
  negb (Z.of_nat (String.length (Body o)) <? multipart_threshold).

(** The requests of a managed copy of an existing object: its size is
    asked for first, then it is copied in one request or in parts. *)
Definition copy_calls (src dst : string) (o : s3_object) : list s3_call :=
  if in_parts o
  then [HeadObject src; MultipartCopy src dst]
  else [HeadObject src; CopyObject src dst].

(** The metadata of the copy: a copy in one request takes over the
    metadata of the source, a copy in parts starts a new object
    without any. *)
Definition copy_metadata (o : s3_object) : gmap string string :=
  if in_parts o then ∅ else Metadata o.

(** [Bucket.copy]: a managed copy, which fails on a missing source
    when it asks for the size. *)
Definition copy (src dst : string) : M unit := fun w =>
  match bucket w !! src with
  | Some o =>
      let o' := {| Body := Body o; LastModified := now w;
                   Metadata := copy_metadata o |} in
      (Ok tt, {| bucket := <[dst := o']> (bucket w); now := now w;
                 calls := calls w ++ copy_calls src dst o |})
  | None => (Raise (ClientError "404"), record (HeadObject src) (bucket w) w)
  end.

(** [Object.delete]: deleting a missing key succeeds. *)
Definition delete (key : string) : M unit := fun w =>
  (Ok tt, record (DeleteObject key) (base.delete key (bucket w)) w).

(** [Object.metadata]: loads the object's attributes. *)
Definition metadata (key : string) : M (gmap string string) := fun w =>
  let w' := record (HeadObject key) (bucket w) w in
  match bucket w !! key with
  | Some o => (Ok (Metadata o), w')
  | None => (Raise (ClientError "404"), w')
  end.

(** [Object.copy_from] onto itself with [MetadataDirective="REPLACE"]. *)
Definition copy_from (key : string) (md : gmap string string) : M unit := fun w =>
  match bucket w !! key with
  | Some o =>
      let o' := {| Body := Body o; LastModified := now w; Metadata := md |} in
      (Ok tt, record (CopyObject key key) (<[key := o']> (bucket w)) w)
  | None => (Raise (ClientError "NoSuchKey"), record (CopyObject key key) (bucket w) w)
  end.

Definition split_pages {A} (l : list A) : list (list A) :=
  map (fun k => take page_size (drop (k * page_size) l))
      (seq 0 ((length l + page_size - 1) / page_size)%nat).

(** The keys under a prefix, in the store's (byte) order. *)
Definition matching (prefix : string) (b : gmap string s3_object)
    : list (string * Z) :=
  merge_sort (fun x y => String.le (fst x) (fst y))
    (map (fun p => (fst p, LastModified (snd p)))
       (filter (fun p => String.prefix prefix (fst p) = true) (map_to_list b))).

(** The store after [n] listing requests for a prefix. *)
Definition listed (prefix : string) (n : nat) (w : world) : world :=
  {| bucket := bucket w; now := now w;
     calls := calls w ++ replicate n (ListObjectsV2 prefix) |}.

(** [get_paginator("list_objects_v2").paginate(Prefix=prefix)], read
    to the end, one request per page: an empty listing is one page
    without ["Contents"].  The loops that consume the pages stop only
    on that page, so reading all pages first sends the same requests. *)
Definition paginate (prefix : string) : M (list page) := fun w =>
  let pages :=
    match matching prefix (bucket w) with
    | [] => [None]
    | entries => map Some (split_pages entries)
    end in
  (Ok pages, listed prefix (length pages) w).

End S3.

(** [for x in xs: acc = body(acc, x)], stopping at the first exception. *)
Fixpoint for_each {A S} (xs : list A) (body : S -> A -> M S) (acc : S) : M S :=
  match xs with
  | [] => mret acc
  | x :: xs' => acc' ← body acc x; for_each xs' body acc'
  end.

(** [sorted(aws_file_set)] *)
Definition sorted (aws_file_set : gset string) : list string :=
  merge_sort String.le (elements aws_file_set).

(** [page["Contents"]] *)
Definition contents (p : S3.page) : M (list (string * Z)) :=
  match p with
  | Some list_all_keys => mret list_all_keys
  | None => raise (KeyError "Contents")
  end.

Definition aws_year_files (year : string) : M (list string) :=
  pages ← S3.paginate year;
  aws_file_set ← for_each pages (fun aws_file_set page =>
    list_all_keys ← contents page;
    let file_l := map fst list_all_keys in
    mret (aws_file_set ∪ list_to_set file_l)) (∅ : gset string);
  mret (sorted aws_file_set).

(** [timedelta(minutes=min_old)] in seconds. *)
Definition minutes (min_old : Z) : Z := 60 * min_old.

(** The spans a [timedelta] can hold, in seconds: less than a thousand
    million days in either direction. *)
Definition in_timedelta (s : Z) : Prop :=
  -86399999913600 <= s < 86400000000000.

(** The times a [datetime] can hold, in seconds since the epoch: year 1
    to year 9999. *)
Definition representable (t : Z) : Prop :=
  -62135596800 <= t <= 253402300799.

#[global] Instance in_timedelta_dec s : Decision (in_timedelta s).
Proof. unfold in_timedelta. apply _. Defined.

#[global] Instance representable_dec t : Decision (representable t).
Proof. unfold representable. apply _. Defined.

(** [datetime.now(tzutc()) - timedelta(minutes=min_old)]: building the
    span and subtracting it both raise outside their ranges. *)
Definition threshold (now min_old : Z) : result Z :=
  if decide (in_timedelta (minutes min_old)) then
    if decide (representable (now - minutes min_old))
    then Ok (now - minutes min_old)
    else Raise OverflowError
  else Raise OverflowError.

(** [x["LastModified"] > datetime.now(tzutc()) - timedelta(minutes=min_old)] *)
Definition modified_after (now min_old : Z) (x : string * Z) : result bool :=
  match threshold now min_old with
  | Ok t => Ok (bool_decide (t < snd x))
  | Raise e => Raise e
  end.

(** [x["LastModified"] < datetime.now(tzutc()) - timedelta(minutes=min_old)] *)
Definition modified_before (now min_old : Z) (x : string * Z) : result bool :=
  match threshold now min_old with
  | Ok t => Ok (bool_decide (snd x < t))
  | Raise e => Raise e
  end.

(** [[x["Key"] for x in list_all_keys if cond(x)]]: the condition is
    evaluated for every entry in turn, and may raise. *)
Fixpoint keys_if (cond : string * Z -> result bool)
    (list_all_keys : list (string * Z)) : result (list string) :=
  match list_all_keys with
  | [] => Ok []
  | x :: rest =>
      match cond x with
      | Raise e => Raise e
      | Ok b =>
          match keys_if cond rest with
          | Raise e => Raise e
          | Ok file_l => Ok (if b then fst x :: file_l else file_l)
          end
      end
  end.

Definition aws_all_year_files (year : string) (min_old : Z) (time_less_than : bool)
    : M (list string) :=
  pages ← S3.paginate year;
  aws_file_set ← for_each pages (fun aws_file_set page => fun w =>
    (list_all_keys ← contents page;
     file_l ← lift
       (if time_less_than
        then keys_if (modified_after (now w) min_old) list_all_keys
        else keys_if (modified_before (now w) min_old) list_all_keys);
     mret (aws_file_set ∪ list_to_set file_l)) w) (∅ : gset string);
  let aws_file_l := sorted aws_file_set in
  mret aws_file_l.

(** ** Quarantine router: [move_s3_file] *)

(** [year, file_ = filename.split("/")] *)
Definition unpack2 (parts : list string) : result (string * string) :=
  match parts with
  | [year; file_] => Ok (year, file_)
  | [] | [_] => Raise (ValueError "not enough values to unpack (expected 2, got 1)")
  | _ => Raise (ValueError "too many values to unpack (expected 2)")
  end.

(** The key the copy is written to. *)
Definition error_key (year number note : string) : string :=
  "_data_error/" +:+ year +:+ "-" +:+ number +:+ "-" +:+ note +:+ ".csv".

(** [filename] is a [str], or [None] when the caller passes one. *)
Definition move_s3_file (filename : option string) (note : string) : M unit :=
  match filename with
  | Some filename =>
      try_except
        (S3.put_object "_data_error/" "";;
         '(year, file_) ← lift (unpack2 (Str.split "/" filename));
         let number := hd "" (Str.split "." file_) in
         S3.copy filename (error_key year number note))
        (fun e =>
           match e with
           | ValueError msg =>
               Some (if negb (Str.contains "not enough values to unpack" msg)
                     then raise (ValueError msg)
                     else mret tt)
           | _ => None
           end);;
      S3.delete filename
  | None =>
      S3.put_object "_data_error/" "";;
      raise AttributeError
  end.

Section Flow.
Context `{Lib}.

(** ** Validator: [process_year_files] *)

(** The local variable [spatial_errors] as the loop carries it from one
    iteration to the next: [None] while unbound, then its last value. *)
Definition locals : Type := option (option string).

(** Reading [spatial_errors] in an exception handler. *)
Definition read_spatial_errors (spatial_errors : locals) : M (option string) :=
  match spatial_errors with
  | Some v => mret v
  | None => raise (UnboundLocalError "spatial_errors")
  end.

(** The metadata-only update of a file that passed both checks. *)
Definition touch (filename : string) : M unit := fun w =>
  (md ← S3.metadata filename;
   let md := <["lastmodified" := strftime (now w)]> md in
   S3.copy_from filename md) w.

(** The body of the [try] for one file; the first component of the
    state is [spatial_errors]. *)
Definition validate (filename : string) (spatial_errors : locals)
    : world -> result locals * (locals * world) :=
  fun w =>
    match S3.get_object filename w with
    | (Raise e, w) => (Raise e, (spatial_errors, w))
    | (Ok data, w) =>
    match unique_values_spatial_check filename data with
    | Raise e => (Raise e, (spatial_errors, w))
    | Ok non_unique_spatial =>
    if truthy non_unique_spatial then
      match move_s3_file non_unique_spatial "non_unique_spatial" w with
      | (Raise e, w) => (Raise e, (spatial_errors, w))
      | (Ok _, w) => (Ok spatial_errors, (spatial_errors, w))
      end
    else
    match S3.get_object filename w with
    | (Raise e, w) => (Raise e, (spatial_errors, w))
    | (Ok data, w) =>
    match csv_clean_spatial_check filename data with
    | Raise e => (Raise e, (spatial_errors, w))
    | Ok v =>
    let spatial_errors := Some v in
    if truthy v then
      match move_s3_file v "missing_spatial" w with
      | (Raise e, w) => (Raise e, (spatial_errors, w))
      | (Ok _, w) => (Ok spatial_errors, (spatial_errors, w))
      end
    else
      match touch filename w with
      | (Raise e, w) => (Raise e, (spatial_errors, w))
      | (Ok _, w) => (Ok spatial_errors, (spatial_errors, w))
      end
    end end end end.

(** One iteration of the loop over [files_l]. *)
Definition process_file (spatial_errors : locals) (filename : string) : M locals :=
  if Str.len filename <=? 5 then mret spatial_errors
  else if Str.contains "year_average" filename || Str.contains "_data_error" filename
  then mret spatial_errors
  else fun w =>
    match validate filename spatial_errors w with
    | (Ok spatial_errors, (_, w)) => (Ok spatial_errors, w)
    | (Raise EmptyDataError, (spatial_errors, w)) =>
        (v ← read_spatial_errors spatial_errors;
         move_s3_file v "empty_data_error";;
         mret spatial_errors) w
    | (Raise (NoSuchKey _), (spatial_errors, w)) =>
        (v ← read_spatial_errors spatial_errors;
         move_s3_file v "no_such_key_error";;
         mret spatial_errors) w
    | (Raise e, (_, w)) => (Raise e, w)
    end.

Definition process_year_files (files_l : list string) : M unit :=
  for_each files_l process_file None;; mret tt.

(** ** Aggregator: [calculate_year_csv] *)

Definition columns : string :=
  "SITE_NUMBER,LATITUDE,LONGITUDE,ELEVATION,AVERAGE_TEMP,DEWP,STP,MIN,MAX,PRCP" +:+ Str.nl.

(** The row computed from one site's frame. *)
Definition site_row (df1 : DataFrame) : result string :=
  average_temp ← getcol df1 "TEMP" ≫= mean;
  average_dewp ← getcol df1 "DEWP" ≫= mean;
  average_stp ← getcol df1 "STP" ≫= mean;
  average_min ← getcol df1 "MIN" ≫= mean;
  average_max ← getcol df1 "MAX" ≫= mean;
  average_prcp ← getcol df1 "PRCP" ≫= mean;
  site_number ← unique <$> getcol df1 "STATION";
  latitude ← unique <$> getcol df1 "LATITUDE";
  longitude ← unique <$> getcol df1 "LONGITUDE";
  elevation ← unique <$> getcol df1 "ELEVATION";
  Ok (array_str site_number +:+ "," +:+ array_str latitude +:+ "," +:+
      array_str longitude +:+ "," +:+ array_str elevation +:+ "," +:+
      average_temp +:+ "," +:+ average_dewp +:+ "," +:+ average_stp +:+ "," +:+
      average_min +:+ "," +:+ average_max +:+ "," +:+ average_prcp +:+ Str.nl).

(** One iteration of the loop over the year's sites. *)
Definition add_site (content site : string) : M string :=
  try_except
    (data ← S3.get_object site;
     df1 ← lift (read_csv [] data);
     row ← lift (site_row df1);
     mret (content +:+ row))
    (fun e =>
       match e with
       | EmptyDataError | ParserError => Some (mret content)
       | _ => None
       end).

Definition summary_key (year_folder : string) : string :=
  "year_average/avg_" +:+ year_folder +:+ ".csv".

Definition calculate_year_csv (year_folder : string) (finished_files : list string)
    (calc_all : bool) : M unit :=
  if negb calc_all && bool_decide (summary_key year_folder ∈ finished_files)
  then mret tt
  else
    files_l ← aws_year_files year_folder;
    let files_l := filter (fun x => 6 < Str.len x) files_l in
    content ← for_each files_l add_site columns;
    S3.put_object (summary_key year_folder) content.

(** The edge of the flow that feeds the aggregator: [calc_files_done]
    is the listing of the summary folder, passed as [finished_files]. *)
Definition flow_calculate_year (year_folder : string) (min_old : Z)
    (time_less_than calc_all : bool) : M unit :=
  calc_files_done ← aws_all_year_files "year_average" min_old time_less_than;
  calculate_year_csv year_folder calc_files_done calc_all.

End Flow.

(** ** A sample library instance

    A reader for plain CSV text (no quoting), used to run the flow on
    sample files.  A column whose cells are all integers is read as
    [int64] unless the [dtype] asks for text; any other column is read
    as text with empty cells missing.  It stands in for pandas on the
    sample files only: pandas also reads decimal columns as numbers and
    takes their mean, and treats further markers ([NA], [NULL], ...) as
    missing.  The theorems of the flow are stated for every library;
    this one serves the closed examples. *)

Module Sample.

Fixpoint digits (s : string) (acc : Z) : option Z :=
  match s with
  | EmptyString => Some acc
  | String c s' =>
      match Ascii.is_nat c with
      | Some d => digits s' (10 * acc + Z.of_nat d)
      | None => None
      end
  end.

Definition parse_int (s : string) : option Z :=
  match s with
  | EmptyString => None
  | _ => digits s 0
  end.

Definition text_cell (s : string) : cell :=
  match s with
  | EmptyString => NaN
  | _ => Str s
  end.

Definition parse_column (as_text : bool) (cells : list string) : Series :=
  match (if as_text then None else mapM parse_int cells) with
  | Some zs => map Int zs
  | None => map text_cell cells
  end.

Definition lines (data : string) : list string :=
  filter (fun l => l ≠ EmptyString) (Str.split "010" data).

Definition read (dtype : list string) (data : string) : result DataFrame :=
  match map (Str.split ",") (lines data) with
  | [] => Raise EmptyDataError
  | header :: rows =>
      if forallb (fun row => (length row <=? length header)%nat) rows then
        Ok (list_to_map
              (imap (fun j label =>
                       (label,
                        parse_column (bool_decide (Str.strip label ∈ dtype))
                          (map (fun row => nth j row EmptyString) rows)))
                    header))
      else Raise ParserError
  end.

Definition as_int (c : cell) : option Z :=
  match c with
  | Int z => Some z
  | _ => None
  end.

(** The mean of an integer column, to one decimal. *)
Definition int_mean (s : Series) : result string :=
  match mapM as_int s with
  | Some (z :: zs) =>
      let t := 10 * foldr Z.add 0 (z :: zs) / Z.of_nat (length (z :: zs)) in
      Ok (pretty (t / 10) +:+ "." +:+ pretty (t `mod` 10))
  | _ => Raise TypeError
  end.

Definition show (c : cell) : string :=
  match c with
  | NaN => "nan"
  | Str s => "'" +:+ s +:+ "'"
  | Int z => pretty z
  | Float m e => pretty m +:+ "*2**" +:+ pretty e
  end.

Fixpoint join (sep : string) (l : list string) : string :=
  match l with
  | [] => EmptyString
  | [x] => x
  | x :: l' => x +:+ sep +:+ join sep l'
  end.

Definition show_array (a : list cell) : string :=
  "[" +:+ join " " (map show a) +:+ "]".

#[global] Instance lib : Lib := {|
  read_csv := read;
  mean := int_mean;
  array_str := show_array;
  strftime := pretty
|}.

End Sample.

(** ** Auxiliary notions used in the statements *)

(** The folder marker written by [move_s3_file]. *)
Definition marker (w : world) : s3_object :=
  {| Body := ""; LastModified := now w; Metadata := ∅ |}.

(** The managed copy of an object made at the current time. *)
Definition copied (w : world) (o : s3_object) : s3_object :=
  {| Body := Body o; LastModified := now w; Metadata := S3.copy_metadata o |}.

(** No character of [s] is [c]. *)
Fixpoint nosep (c : ascii) (s : string) : bool :=
  match s with
  | EmptyString => true
  | String a s' => negb (Ascii.eqb a c) && nosep c s'
  end.

(** ** Sample stores *)

Module World.

Definition obj (body : string) (modified : Z) : s3_object :=
  {| Body := body; LastModified := modified; Metadata := ∅ |}.

Definition make (files : list (string * s3_object)) (time : Z) : world :=
  {| bucket := list_to_map files; now := time; calls := [] |}.

Definition csv (rows : list string) : string :=
  foldr (fun row acc => row +:+ Str.nl +:+ acc) EmptyString rows.

(** A consistent station file. *)
Definition good : string :=
  csv ["STATION,LATITUDE,LONGITUDE,ELEVATION,TEMP,DEWP,STP,MIN,MAX,PRCP";
       "1001099999,70.93,-8.66,9.0,50,40,1000,45,55,0";
       "1001099999,70.93,-8.66,9.0,60,50,1002,55,65,0"].

(** The latitude gains a decimal mid-year. *)
Definition drifting : string :=
  csv ["STATION,LATITUDE,LONGITUDE,ELEVATION,TEMP,DEWP,STP,MIN,MAX,PRCP";
       "1001099999,70.9,-8.66,9.0,50,40,1000,45,55,0";
       "1001099999,70.93,-8.66,9.0,60,50,1002,55,65,0"].

(** No elevation is recorded. *)
Definition blank_elevation : string :=
  csv ["STATION,LATITUDE,LONGITUDE,ELEVATION,TEMP,DEWP,STP,MIN,MAX,PRCP";
       "1001099999,70.93,-8.66,,50,40,1000,45,55,0";
       "1001099999,70.93,-8.66,,60,50,1002,55,65,0"].

(** The elevation column is absent. *)
Definition no_elevation : string :=
  csv ["STATION,LATITUDE,LONGITUDE,TEMP,DEWP,STP,MIN,MAX,PRCP";
       "1001099999,70.93,-8.66,50,40,1000,45,55,0";
       "1001099999,70.93,-8.66,60,50,1002,55,65,0"].

(** The elevation column is absent and the latitude drifts. *)
Definition drifting_no_elevation : string :=
  csv ["STATION,LATITUDE,LONGITUDE,TEMP,DEWP,STP,MIN,MAX,PRCP";
       "1001099999,70.9,-8.66,50,40,1000,45,55,0";
       "1001099999,70.93,-8.66,60,50,1002,55,65,0"].

(** The temperature column is absent. *)
Definition no_temp : string :=
  csv ["STATION,LATITUDE,LONGITUDE,ELEVATION,DEWP,STP,MIN,MAX,PRCP";
       "1001099999,70.93,-8.66,9.0,40,1000,45,55,0"].

Definition one (key body : string) : world := make [(key, obj body 0)] 100.

(** A year with one consistent file and one empty file. *)
Definition year_1929 : world :=
  make [("1929/01001099999.csv", obj good 0);
        ("1929/01002099999.csv", obj EmptyString 0)] 100.

(** A year whose summary was written long before the run. *)
Definition stale_summary : world :=
  make [("1929/01001099999.csv", obj good 0);
        ("year_average/avg_1929.csv", obj "stale" 0)] 6000.

(** The frame the sample reader gives the validator for a body. *)
Definition frame (body : string) : DataFrame :=
  match Sample.read spatial_dtype body with
  | Ok df => df
  | Raise _ => ∅
  end.

End World.

(** A key of a station-year file [year/file_] that the validator does
    not skip. *)
Definition data_key (filename year file_ : string) : Prop :=
  5 < Str.len filename
  /\ Str.contains "year_average" filename = false
  /\ Str.contains "_data_error" filename = false
  /\ Str.split "/" filename = [year; file_].

(** The four spatial labels each select one column, and the columns
    have the same number of rows. *)
Definition spatial_columns (records : Relabelled) (station latitude longitude
    elevation : Series) : Prop :=
  getitem records "STATION" = Ok (OneSeries station)
  /\ getitem records "LATITUDE" = Ok (OneSeries latitude)
  /\ getitem records "LONGITUDE" = Ok (OneSeries longitude)
  /\ getitem records "ELEVATION" = Ok (OneSeries elevation)
  /\ length latitude = length station
  /\ length longitude = length station
  /\ length elevation = length station.

(** A column with at least two distinct values. *)
Definition distinct_values (s : Series) : Prop :=
  exists a b, a ∈ s /\ b ∈ s /\ a <> b.

(** One of the four spatial labels selects nothing. *)
Definition lacks_spatial_column (records : Relabelled) : Prop :=
  exists label, label ∈ ["STATION"; "LATITUDE"; "LONGITUDE"; "ELEVATION"]
                /\ getitem records label = Raise (KeyError label).

Section Sites.
Context `{Lib}.

(** What the aggregator's [try] body computes for one site of a bucket. *)
Definition site_result (b : gmap string s3_object) (site : string) : result string :=
  match b !! site with
  | Some o => read_csv [] (Body o) ≫= site_row
  | None => Raise (NoSuchKey site)
  end.

(** The site gives a row, or raises what the aggregator skips. *)
Definition site_handled (r : result string) : Prop :=
  match r with
  | Ok _ | Raise EmptyDataError | Raise ParserError => True
  | _ => False
  end.

Definition site_row_opt (b : gmap string s3_object) (site : string) : option string :=
  match site_result b site with
  | Ok row => Some row
  | Raise _ => None
  end.

End Sites.

(** The rows one after the other. *)
Definition join_rows (rows : list string) : string :=
  foldr String.append EmptyString rows.

(** An exception that no handler of the validator catches. *)
Definition uncaught (e : exn) : Prop :=
  match e with
  | KeyError _ | IndexError | AttributeError => True
  | _ => False
  end.

(** The value left in [spatial_errors], if it is a key, is not [k']. *)
Definition stale_differs (k' : string) (spatial_errors : option (option string)) : Prop :=
  forall f, spatial_errors = Some (Some f) -> f <> k'.

(** ** Discovery of the year folders: [fetch_aws_folders] *)

Module Delimited.

(** An entry of a listing with a delimiter: a key that holds no
    delimiter, or the prefix that rolls up the keys sharing it. *)
Inductive entry : Type :=
  | Content (key : string)
  | CommonPrefix (prefix : string).

#[global] Instance entry_eq_dec : EqDecision entry.
Proof. solve_decision. Defined.

(** How a key shows in a listing with [Prefix=""] and [Delimiter="/"]. *)
Definition entry_of (key : string) : entry :=
  match Str.split "/" key with
  | seg :: _ :: _ => CommonPrefix (seg +:+ "/")
  | _ => Content key
  end.

Definition common_prefix (e : entry) : option string :=
  match e with
  | CommonPrefix p => Some p
  | Content _ => None
  end.

(** [list_objects_v2(Prefix="", Delimiter="/")], a single response: at
    most one page of entries in key order; the ["CommonPrefixes"] entry
    is present when there is a prefix among them. *)
Definition list_objects_v2 : M (option (list string)) := fun w =>
  let keys := merge_sort String.le (map fst (map_to_list (bucket w))) in
  let entries := take S3.page_size (remove_dups (map entry_of keys)) in
  let prefixes := omap common_prefix entries in
  (Ok (match prefixes with
       | [] => None
       | _ => Some prefixes
       end), record (ListObjectsV2 "") (bucket w) w).

End Delimited.

Definition fetch_aws_folders : M (list string) :=
  response ← Delimited.list_objects_v2;
  (* response.get("CommonPrefixes", []) *)
  let folder_list := default [] response in
  let folder_list := map (fun x => hd "" (Str.split "/" x)) folder_list in
  let folder_list := filter (fun x => x <> "") folder_list in
  mret (merge_sort String.le folder_list).

(** Further sample files. *)
Module Files.

(** Every latitude is the text [X]. *)
Definition constant_x : string :=
  World.csv ["STATION,LATITUDE,LONGITUDE,ELEVATION,TEMP,DEWP,STP,MIN,MAX,PRCP";
             "1001099999,X,-8.66,9.0,50,40,1000,45,55,0";
             "1001099999,X,-8.66,9.0,60,50,1002,55,65,0"].

(** A header and no rows. *)
Definition header_only : string :=
  World.csv ["STATION,LATITUDE,LONGITUDE,ELEVATION,TEMP,DEWP,STP,MIN,MAX,PRCP"].

(** Two years, a summary, a quarantined file and a top-level file. *)
Definition store : world :=
  World.make [("1929/01001099999.csv", World.obj World.good 0);
              ("1930/01001099999.csv", World.obj World.good 0);
              ("year_average/avg_1929.csv", World.obj "stale" 0);
              ("_data_error/", World.obj "" 0);
              ("README.md", World.obj "notes" 0)] 100.

End Files.

(** Lookups through inserts and deletes of a bucket. *)
Ltac map_lookup :=
  repeat first
    [ rewrite lookup_delete_eq | rewrite lookup_insert_eq
    | rewrite lookup_delete_ne by done | rewrite lookup_insert_ne by done ].

(** The same store [dt] seconds later. *)
Definition elapse (dt : Z) (w : world) : world :=
  {| bucket := bucket w; now := now w + dt; calls := calls w |}.

(** The number of pages in which the store lists a prefix: pages of a
    thousand keys, and one page for an empty listing. *)
Definition page_count (prefix : string) (b : gmap string s3_object) : nat :=
  Nat.max 1 (Nat.div (length (S3.matching prefix b) + 999) 1000).
(** * Properties *)

(** ** Batcher *)

Lemma slice_prefix {A} (l : list A) (M : Z) :
  0 <= M -> Py.slice l 0 M = take (Z.to_nat M) l.
Proof.
  intros HM. unfold Py.slice, Py.clamp. simpl.
  destruct (Z.ltb_spec M 0) as [?|_]; [lia|].
  rewrite (Z.min_l 0) by lia. simpl. rewrite drop_0, Nat.sub_0_r.
  destruct (Z.min_spec M (Z.of_nat (length l))) as [[? ->]|[? ->]]; [done|].
  rewrite Nat2Z.id. rewrite (take_ge l (length l)) by lia. rewrite take_ge by lia. done.
Qed.

Lemma slice_chunk {A} (l : list A) (k : nat) (C : Z) :
  1 <= C -> (k * Z.to_nat C <= length l)%nat ->
  Py.slice l (Z.of_nat k * C) (Z.of_nat k * C + C) =
  take (Z.to_nat C) (drop (k * Z.to_nat C) l).
Proof.
  intros HC Hk. unfold Py.slice, Py.clamp.
  destruct (Z.ltb_spec (Z.of_nat k * C) 0) as [?|_]; [nia|].
  destruct (Z.ltb_spec (Z.of_nat k * C + C) 0) as [?|_]; [nia|].
  assert (Z.to_nat (Z.min (Z.of_nat k * C) (Z.of_nat (length l))) = (k * Z.to_nat C)%nat) as -> by nia.
  destruct (Z.min_spec (Z.of_nat k * C + C) (Z.of_nat (length l))) as [[? ->]|[? ->]].
  - f_equal. nia.
  - rewrite Nat2Z.id. rewrite !take_ge by (rewrite length_drop; nia). done.
Qed.

Lemma concat_take_drop {A} (l : list A) (c m : nat) :
  concat (map (fun k => take c (drop (k * c) l)) (seq 0 m)) = take (m * c) l.
Proof.
  induction m as [|m IH]; [done|].
  rewrite seq_S, map_app, concat_app, IH. simpl. rewrite app_nil_r.
  replace (c + m * c)%nat with (m * c + c)%nat by lia.
  by rewrite take_take_drop.
Qed.

Lemma chunks_spec {A} (l : list A) (C : Z) :
  1 <= C ->
  let c := Z.to_nat C in
  let m := Z.to_nat ((Z.of_nat (length l) + C - 1) / C) in
  chunks l C = Ok (map (fun k => take c (drop (k * c) l)) (seq 0 m))
  /\ (length l <= m * c)%nat
  /\ (forall k, (S k < m)%nat -> (S k * c < length l)%nat)
  /\ (forall k, (k < m)%nat -> (k * c < length l)%nat).
Proof.
  intros HC c m.
  pose proof (Z.div_mod (Z.of_nat (length l) + C - 1) C ltac:(lia)) as Hdm.
  pose proof (Z.mod_pos_bound (Z.of_nat (length l) + C - 1) C ltac:(lia)) as Hmod.
  assert (Hq : 0 <= (Z.of_nat (length l) + C - 1) / C) by (apply Z.div_pos; lia).
  assert (Hm : Z.of_nat m = (Z.of_nat (length l) + C - 1) / C) by (subst m; lia).
  assert (Hc : Z.of_nat c = C) by (subst c; lia).
  assert (Hlt : forall k, (k < m)%nat -> (k * c < length l)%nat).
  { intros k Hk. apply Nat2Z.inj_lt. rewrite Nat2Z.inj_mul, Hc.
    assert (Z.of_nat k + 1 <= Z.of_nat m) by lia. nia. }
  split; [|split; [|split]].
  - unfold chunks, Py.range.
    destruct (Z.eqb_spec C 0) as [?|_]; [lia|].
    destruct (Z.ltb_spec 0 C) as [_|?]; [|lia].
    rewrite Z.sub_0_r. fold m. f_equal. rewrite map_map.
    apply map_ext_in. intros k Hk. apply in_seq in Hk.
    rewrite Z.add_0_l. apply slice_chunk; [done|].
    specialize (Hlt k ltac:(lia)). fold c. lia.
  - apply Nat2Z.inj_le. rewrite Nat2Z.inj_mul, Hc, Hm. nia.
  - intros k Hk. apply Nat2Z.inj_lt. rewrite Nat2Z.inj_mul, Hc.
    assert (Z.of_nat (S k) + 1 <= Z.of_nat m) by lia. nia.
  - done.
Qed.

(** C7 (as amended): for a chunk size of at least one and a maximum of
    at least zero, the batches concatenated are the first [M] keys of
    the flattened key-lists in their order; every batch holds between
    one and [C] keys and every batch but the last holds exactly [C];
    five keys in batches of two give two pairs and a single. *)
Theorem batch_lossless_ordered (file_l : list (list string)) (C M : Z) :
  1 <= C -> 0 <= M ->
  exists batches,
    aws_lists_prep_for_map file_l C M = Ok batches
    /\ concat batches = take (Z.to_nat M) (concat file_l)
    /\ (forall (i : nat) (b : list string), batches !! i = Some b ->
          (1 <= length b)%nat /\ Z.of_nat (length b) <= C
          /\ ((S i < length batches)%nat -> Z.of_nat (length b) = C))
    /\ aws_lists_prep_for_map [["a"; "b"; "c"; "d"; "e"]] 2 5
       = Ok [["a"; "b"]; ["c"; "d"]; ["e"]].
Proof.
  intros HC HM. unfold aws_lists_prep_for_map.
  rewrite slice_prefix by done.
  set (l := take (Z.to_nat M) (concat file_l)).
  destruct (chunks_spec l C HC) as (Hch & Hcov & Hfull & Hlt).
  eexists. split; [exact Hch|]. split; [|split; [|reflexivity]].
  - rewrite concat_take_drop. apply take_ge. exact Hcov.
  - intros i b Hb. rewrite length_map, length_seq.
    apply list_lookup_fmap_Some in Hb as (k & -> & Hk).
    apply lookup_seq in Hk as [-> Hi]. simpl in *.
    rewrite length_take, length_drop.
    specialize (Hlt i Hi).
    split; [lia|]. split; [lia|].
    intros HS. specialize (Hfull i HS). simpl in Hfull. lia.
Qed.

Lemma batch_lossless_ordered_witness :
  exists batches,
    aws_lists_prep_for_map [["a"; "b"; "c"]; []; ["d"; "e"; "f"; "g"]] 3 5 = Ok batches
    /\ concat batches = take (Z.to_nat 5) (concat [["a"; "b"; "c"]; []; ["d"; "e"; "f"; "g"]])
    /\ (forall (i : nat) (b : list string), batches !! i = Some b ->
          (1 <= length b)%nat /\ Z.of_nat (length b) <= 3
          /\ ((S i < length batches)%nat -> Z.of_nat (length b) = 3))
    /\ aws_lists_prep_for_map [["a"; "b"; "c"; "d"; "e"]] 2 5
       = Ok [["a"; "b"]; ["c"; "d"]; ["e"]].
Proof.
  apply (batch_lossless_ordered [["a"; "b"; "c"]; []; ["d"; "e"; "f"; "g"]] 3 5); lia.
Defined.

Example batch_of_seven_by_three :
  aws_lists_prep_for_map [["a"; "b"; "c"]; []; ["d"; "e"; "f"; "g"]] 3 5
  = Ok [["a"; "b"; "c"]; ["d"; "e"]].
Proof. reflexivity. Qed.

(** C7, refuted as stated: at the maximum [-1] the batcher does not
    dispatch "the first [M]" keys, which would be none; the slice drops
    the last key and the two others are dispatched. *)
Lemma batch_maximum_below_zero :
  aws_lists_prep_for_map [["a"; "b"; "c"]] 2 (-1) = Ok [["a"; "b"]]
  /\ concat [["a"; "b"]] <> take (Z.to_nat (-1)) (concat [["a"; "b"; "c"]]).
Proof. split; [reflexivity|discriminate]. Qed.

(** ** The store monad *)

Lemma record_record c1 c2 b1 b2 w :
  record c2 b2 (record c1 b1 w)
  = {| bucket := b2; now := now w; calls := calls w ++ [c1; c2] |}.
Proof. unfold record. simpl. by rewrite <- app_assoc. Qed.

(** ** Quarantine router *)

Lemma move_s3_file_ok w f year file_ note o :
  Str.split "/" f = [year; file_] ->
  <["_data_error/" := marker w]> (bucket w) !! f = Some o ->
  let dest := error_key year (hd "" (Str.split "." file_)) note in
  move_s3_file (Some f) note w =
    (Ok tt,
     {| bucket := delete f (<[dest := copied w o]>
                              (<["_data_error/" := marker w]> (bucket w)));
        now := now w;
        calls := calls w ++ PutObject "_data_error/"
                            :: S3.copy_calls f dest o ++ [DeleteObject f] |}).
Proof.
  intros Hsplit Hf dest.
  unfold move_s3_file, try_except, mbind, M_bind, S3.put_object, lift. simpl.
  rewrite Hsplit. simpl. unfold S3.copy. simpl.
  fold (marker w). rewrite Hf. simpl.
  unfold S3.delete, record. simpl. rewrite <- !app_assoc. done.
Qed.

(** Below the threshold the copy is one request after the size was
    asked for, and the metadata goes with it. *)
Lemma copy_in_one_request src dst o :
  Z.of_nat (String.length (Body o)) < S3.multipart_threshold ->
  S3.copy_calls src dst o = [HeadObject src; CopyObject src dst]
  /\ S3.copy_metadata o = Metadata o.
Proof.
  intros Hsize. unfold S3.copy_calls, S3.copy_metadata, S3.in_parts.
  destruct (Z.ltb_spec (Z.of_nat (String.length (Body o))) S3.multipart_threshold);
    [done|lia].
Qed.

(** ** Strings *)

Lemma string_app_cons a s t : String a s +:+ t = String a (s +:+ t).
Proof. reflexivity. Qed.

Lemma string_app_length s t :
  String.length (s +:+ t) = (String.length s + String.length t)%nat.
Proof. induction s as [|a s IH]; [done|]. rewrite string_app_cons. simpl. by rewrite IH. Qed.

Lemma split_nonempty c s : Str.split c s <> [].
Proof.
  destruct s as [|a s]; simpl; [done|].
  destruct (Ascii.eqb a c); [done|]. by destruct (Str.split c s).
Qed.

Lemma split_cons c a s :
  Str.split c (String a s) =
  if Ascii.eqb a c then EmptyString :: Str.split c s
  else String a (hd EmptyString (Str.split c s)) :: tail (Str.split c s).
Proof.
  simpl. destruct (Ascii.eqb a c); [done|].
  pose proof (split_nonempty c s). by destruct (Str.split c s).
Qed.

Lemma split_app_sep c a r :
  nosep c a = true -> Str.split c (a +:+ String c r) = a :: Str.split c r.
Proof.
  induction a as [|x a IH]; intros Ha.
  - change (EmptyString +:+ String c r) with (String c r).
    rewrite split_cons. by rewrite Ascii.eqb_refl.
  - simpl in Ha. apply andb_true_iff in Ha as [Hx Ha].
    rewrite string_app_cons, split_cons, (IH Ha).
    apply negb_true_iff in Hx. by rewrite Hx.
Qed.

Lemma split_single c s x : Str.split c s = [x] -> x = s.
Proof.
  revert x. induction s as [|a s IH]; intros x; [simpl; congruence|].
  rewrite split_cons. destruct (Ascii.eqb a c).
  - intros [= _ Hs]. by destruct (split_nonempty c s).
  - pose proof (split_nonempty c s) as Hne.
    destruct (Str.split c s) as [|h t] eqn:E; [done|]. simpl.
    intros [= <- ->]. by rewrite (IH h).
Qed.

Lemma hd_split_app c a s :
  nosep c a = true ->
  hd EmptyString (Str.split c (a +:+ s)) = a +:+ hd EmptyString (Str.split c s).
Proof.
  induction a as [|x a IH]; intros Ha; [done|].
  simpl in Ha. apply andb_true_iff in Ha as [Hx Ha].
  rewrite !string_app_cons, split_cons.
  apply negb_true_iff in Hx. rewrite Hx. simpl. by rewrite (IH Ha).
Qed.

Lemma hd_split_nosep c s : nosep c (hd EmptyString (Str.split c s)) = true.
Proof.
  induction s as [|a s IH]; [done|].
  rewrite split_cons. destruct (Ascii.eqb a c) eqn:E; [done|].
  simpl. by rewrite E, IH.
Qed.

(** The quarantine key never coincides with a key of shape [year/file]. *)
Lemma error_key_fresh f year file_ note :
  Str.split "/" f = [year; file_] ->
  error_key year (hd EmptyString (Str.split "." file_)) note <> f.
Proof.
  intros Hsplit Heq. set (number := hd EmptyString (Str.split "." file_)) in *.
  pose proof (hd_split_nosep "." file_) as Hnum. fold number in Hnum.
  rewrite <- Heq in Hsplit. unfold error_key in Hsplit.
  change ("_data_error/" +:+ ?r) with ("_data_error" +:+ String "/" r) in Hsplit.
  rewrite split_app_sep in Hsplit by reflexivity.
  injection Hsplit as Hyear Hrest. apply split_single in Hrest.
  subst year. 
  assert (Hn : number = hd EmptyString (Str.split "." file_)) by done.
  rewrite Hrest in Hn.
  change ("_data_error" +:+ "-" +:+ ?r) with ("_data_error-" +:+ r) in Hn.
  rewrite hd_split_app in Hn by reflexivity.
  rewrite hd_split_app in Hn by exact Hnum.
  apply (f_equal String.length) in Hn.
  rewrite !string_app_length in Hn. simpl in Hn. lia.
Qed.

Lemma move_s3_file_unsplit w f f' note :
  Str.split "/" f = [f'] ->
  move_s3_file (Some f) note w =
    (Ok tt,
     {| bucket := delete f (<["_data_error/" := marker w]> (bucket w));
        now := now w;
        calls := calls w ++ [PutObject "_data_error/"; DeleteObject f] |}).
Proof.
  intros Hsplit.
  unfold move_s3_file, try_except, mbind, M_bind, S3.put_object, lift. simpl.
  rewrite Hsplit. simpl.
  unfold S3.delete, record. simpl. by rewrite <- app_assoc.
Qed.

Lemma error_key_not_marker year number note :
  error_key year number note <> "_data_error/".
Proof.
  intros Heq. apply (f_equal String.length) in Heq.
  unfold error_key in Heq. rewrite !string_app_length in Heq. simpl in Heq. lia.
Qed.

(** C2 (as amended): on an existing key of shape [year/file] the router
    removes the key and leaves its copy under the quarantine name; a
    second call on the now absent key, made any time later, raises the
    client error of the copy before the delete is reached, and in the
    bucket it only writes the folder marker again. *)
Theorem quarantine_then_repeat w f year file_ note o dt :
  Str.split "/" f = [year; file_] ->
  f <> "_data_error/" ->
  bucket w !! f = Some o ->
  let dest := error_key year (hd "" (Str.split "." file_)) note in
  exists w1 w2,
    move_s3_file (Some f) note w = (Ok tt, w1)
    /\ bucket w1 !! f = None
    /\ bucket w1 !! dest = Some (copied w o)
    /\ move_s3_file (Some f) note (elapse dt w1) = (Raise (ClientError "404"), w2)
    /\ bucket w2 = <["_data_error/" := marker (elapse dt w1)]> (bucket w1)
    /\ calls w2 = (calls w1 ++ [PutObject "_data_error/"; HeadObject f])%list.
Proof.
  intros Hsplit Hm Hf dest.
  assert (Hfresh : dest <> f) by (by apply error_key_fresh).
  assert (Hf' : <["_data_error/" := marker w]> (bucket w) !! f = Some o)
    by (by rewrite lookup_insert_ne).
  rewrite (move_s3_file_ok w f year file_ note o Hsplit Hf'). fold dest.
  eexists. eexists. split; [reflexivity|]. cbn [bucket].
  split; [apply lookup_delete_eq|].
  split; [by rewrite lookup_delete_ne, lookup_insert_eq|].
  unfold move_s3_file, try_except, mbind, M_bind, S3.put_object, lift.
  cbn [elapse bucket now calls record]. rewrite Hsplit.
  cbn [unpack2]. unfold S3.copy. cbn [bucket now calls record].
  rewrite lookup_insert_ne by done. rewrite lookup_delete_eq.
  split; [reflexivity|]. cbn [bucket calls record marker elapse now].
  split; [done|]. by rewrite <- app_assoc.
Qed.

Lemma quarantine_then_repeat_witness :
  exists w1 w2,
    move_s3_file (Some "1929/01001099999.csv") "missing_spatial"
      (World.one "1929/01001099999.csv" World.blank_elevation) = (Ok tt, w1)
    /\ bucket w1 !! "1929/01001099999.csv" = None
    /\ bucket w1 !! "_data_error/1929-01001099999-missing_spatial.csv"
       = Some (copied (World.one "1929/01001099999.csv" World.blank_elevation)
                 (World.obj World.blank_elevation 0))
    /\ move_s3_file (Some "1929/01001099999.csv") "missing_spatial" (elapse 5 w1)
       = (Raise (ClientError "404"), w2)
    /\ bucket w2 = <["_data_error/" := marker (elapse 5 w1)]> (bucket w1)
    /\ calls w2 = (calls w1 ++ [PutObject "_data_error/";
                                HeadObject "1929/01001099999.csv"])%list.
Proof.
  apply (quarantine_then_repeat
           (World.one "1929/01001099999.csv" World.blank_elevation)
           "1929/01001099999.csv" "1929" "01001099999.csv" "missing_spatial"
           (World.obj World.blank_elevation 0) 5).
  - reflexivity.
  - discriminate.
  - reflexivity.
Defined.

(** C2, refuted as stated: the second call on the absent key raises, and
    made five seconds later it has also rewritten the folder marker. *)
Lemma quarantine_repeat_raises :
  let w := World.one "1929/01001099999.csv" World.blank_elevation in
  let w1 := snd (move_s3_file (Some "1929/01001099999.csv") "missing_spatial" w) in
  let r := move_s3_file (Some "1929/01001099999.csv") "missing_spatial" (elapse 5 w1) in
  bucket w1 !! "1929/01001099999.csv" = None
  /\ fst (move_s3_file (Some "1929/01001099999.csv") "missing_spatial" w1)
     = Raise (ClientError "404")
  /\ fst r = Raise (ClientError "404")
  /\ LastModified <$> (bucket w1 !! "_data_error/") = Some 100
  /\ LastModified <$> (bucket (snd r) !! "_data_error/") = Some 105.
Proof. vm_compute. done. Qed.

(** C5 (as amended): a key without separator is deleted without a copy
    and without an exception; a key with more than one separator makes
    the router raise, and the key is not deleted. *)
Theorem quarantine_key_shape w f note :
  length (Str.split "/" f) <> 2%nat ->
  move_s3_file (Some f) note w =
    if decide (length (Str.split "/" f) = 1%nat)
    then (Ok tt,
          {| bucket := delete f (<["_data_error/" := marker w]> (bucket w));
             now := now w;
             calls := calls w ++ [PutObject "_data_error/"; DeleteObject f] |})
    else (Raise (ValueError "too many values to unpack (expected 2)"),
          {| bucket := <["_data_error/" := marker w]> (bucket w);
             now := now w;
             calls := calls w ++ [PutObject "_data_error/"] |}).
Proof.
  intros Hlen. pose proof (split_nonempty "/" f) as Hne.
  destruct (Str.split "/" f) as [|a [|b [|c l]]] eqn:E; simpl in *; try done.
  - by apply move_s3_file_unsplit with a.
  - unfold move_s3_file, try_except, mbind, M_bind, S3.put_object, lift. simpl.
    by rewrite E.
Qed.

Lemma quarantine_key_shape_witness :
  move_s3_file (Some "README.md") "missing_spatial"
    (World.one "README.md" World.good) =
  (Ok tt,
   {| bucket := delete "README.md"
                  (<["_data_error/" := marker (World.one "README.md" World.good)]>
                     (bucket (World.one "README.md" World.good)));
      now := 100;
      calls := [PutObject "_data_error/"; DeleteObject "README.md"] |}).
Proof.
  apply (quarantine_key_shape (World.one "README.md" World.good) "README.md"
           "missing_spatial").
  vm_compute. discriminate.
Defined.

(** C5, refuted as stated: with two separators the router raises and the
    source object stays. *)
Lemma quarantine_nested_key_raises :
  let w := World.one "1929/extra/01001099999.csv" World.good in
  let r := move_s3_file (Some "1929/extra/01001099999.csv") "missing_spatial" w in
  fst r = Raise (ValueError "too many values to unpack (expected 2)")
  /\ bucket (snd r) !! "1929/extra/01001099999.csv" = Some (World.obj World.good 0).
Proof. vm_compute. done. Qed.

(** ** Discovery *)

Lemma for_each_frame {A S} (xs : list A) (body : S -> A -> M S) acc w :
  (forall acc x w, snd (body acc x w) = w) ->
  snd (for_each xs body acc w) = w.
Proof.
  intros Hbody. revert acc. induction xs as [|x xs IH]; intros acc; [done|].
  simpl. unfold mbind, M_bind. specialize (Hbody acc x w).
  destruct (body acc x w) as [[acc'|e] w']; simpl in *; subst; [apply IH|done].
Qed.

Lemma contents_frame p w : snd (contents p w) = w.
Proof. by destruct p. Qed.

Lemma M_bind_frame {A B} (m : M A) (f : A -> M B) w w1 :
  snd (m w) = w1 -> (forall a, snd (f a w1) = w1) -> snd ((m ≫= f) w) = w1.
Proof.
  unfold mbind, M_bind. destruct (m w) as [[a|e] w']; simpl; intros ->; auto.
Qed.

Lemma aws_year_files_frame year w :
  bucket (snd (aws_year_files year w)) = bucket w
  /\ now (snd (aws_year_files year w)) = now w.
Proof.
  assert (exists n, snd (aws_year_files year w) = S3.listed year n w) as [n ->];
    [|done].
  unfold aws_year_files. eexists. apply M_bind_frame; [reflexivity|]. intros pages.
  apply M_bind_frame; [|done].
  apply for_each_frame. intros acc x w0.
  apply M_bind_frame; [apply contents_frame|done].
Qed.

Lemma filter_none {A} (P : A -> Prop) `{forall x, Decision (P x)} (l : list A) :
  (forall x, x ∈ l -> ~ P x) -> filter P l = [].
Proof.
  induction l as [|x l IH]; intros Hl; [done|].
  rewrite filter_cons_False by (apply Hl; left).
  apply IH. intros y Hy. apply Hl. by right.
Qed.

Lemma matching_nil prefix (b : gmap string s3_object) :
  (forall key, is_Some (b !! key) -> String.prefix prefix key = false) ->
  S3.matching prefix b = [].
Proof.
  intros Hnone. unfold S3.matching.
  assert (filter (fun p : string * s3_object => String.prefix prefix (fst p) = true)
            (map_to_list b) = []) as ->; [|done].
  apply filter_none. intros [k o] Hin.
  apply elem_of_map_to_list in Hin. simpl.
  rewrite (Hnone k) by eauto. done.
Qed.

(** C10: with no object under the prefix both listings raise on the
    page's missing ["Contents"] entry. *)
Theorem listing_without_objects_raises w prefix min_old time_less_than :
  (forall key, is_Some (bucket w !! key) -> String.prefix prefix key = false) ->
  fst (aws_year_files prefix w) = Raise (KeyError "Contents")
  /\ fst (aws_all_year_files prefix min_old time_less_than w)
     = Raise (KeyError "Contents").
Proof.
  intros Hnone.
  unfold aws_year_files, aws_all_year_files, mbind, M_bind, S3.paginate.
  rewrite (matching_nil _ _ Hnone). done.
Qed.

Lemma listing_without_objects_raises_witness :
  fst (aws_year_files "1930" (World.one "1929/01001099999.csv" World.good))
  = Raise (KeyError "Contents")
  /\ fst (aws_all_year_files "1930" 1 true
            (World.one "1929/01001099999.csv" World.good))
     = Raise (KeyError "Contents").
Proof.
  apply (listing_without_objects_raises
           (World.one "1929/01001099999.csv" World.good) "1930" 1 true).
  intros key [o Ho]. unfold World.one, World.make in Ho. simpl in Ho.
  destruct (decide (key = "1929/01001099999.csv")) as [->|Hne]; [reflexivity|].
  rewrite lookup_insert_ne in Ho by done. by rewrite lookup_empty in Ho.
Defined.

(** ** Columns *)

Lemma unique_from_elem seen s x :
  x ∈ s -> x ∈ seen \/ x ∈ unique_from seen s.
Proof.
  revert seen. induction s as [|y s IH]; intros seen Hx; [by apply elem_of_nil in Hx|].
  apply elem_of_cons in Hx as [->|Hx]; simpl; case_bool_decide as Hy.
  - by left.
  - right. by left.
  - by apply IH.
  - destruct (IH (y :: seen) Hx) as [Hs|Hu].
    + apply elem_of_cons in Hs as [->|Hs]; [right; by left|by left].
    + right. by right.
Qed.

Lemma two_distinct_length {A} (l : list A) a b :
  a ∈ l -> b ∈ l -> a <> b -> (1 < length l)%nat.
Proof.
  destruct l as [|x [|y l]]; simpl; intros Ha Hb Hab; [| |lia].
  - by apply elem_of_nil in Ha.
  - apply list_elem_of_singleton in Ha, Hb. congruence.
Qed.

Lemma unique_two_distinct s a b :
  a ∈ s -> b ∈ s -> a <> b -> (1 < length (unique s))%nat.
Proof.
  intros Ha Hb Hab. apply (two_distinct_length _ a b); [| |done].
  - destruct (unique_from_elem [] s a Ha) as [H|H]; [by apply elem_of_nil in H|done].
  - destruct (unique_from_elem [] s b Hb) as [H|H]; [by apply elem_of_nil in H|done].
Qed.

Lemma unique_from_seen seen s :
  (forall x, x ∈ s -> x ∈ seen) -> unique_from seen s = [].
Proof.
  induction s as [|y s IH]; intros Hs; [done|]. simpl.
  rewrite bool_decide_eq_true_2 by (apply Hs; left).
  apply IH. intros x Hx. apply Hs. by right.
Qed.

Lemma unique_nonempty s : s <> [] -> unique s <> [].
Proof. by destruct s. Qed.

(** A column holding the single value [v]. *)
Lemma unique_single s v : unique s = [v] -> s <> [] /\ forall x, x ∈ s -> x = v.
Proof.
  intros Hu. split; [by intros ->|]. intros x Hx.
  destruct (unique_from_elem [] s x Hx) as [H|H]; [by apply elem_of_nil in H|].
  unfold unique in Hu. rewrite Hu in H. by apply list_elem_of_singleton in H.
Qed.

Lemma forallb_cell_eq_single s v :
  s <> [] -> (forall x, x ∈ s -> x = v) ->
  forallb (fun c => cell_eq c v) s = negb (bool_decide (v = NaN)).
Proof.
  intros Hne Hall. case_bool_decide as Hv; simpl.
  - subst v. destruct s as [|x s]; [done|]. simpl.
    rewrite (Hall x) by left. done.
  - apply forallb_forall. intros x Hx. apply list_elem_of_In in Hx.
    rewrite (Hall x Hx). destruct v; try done; simpl; by apply bool_decide_eq_true_2.
Qed.

Section ChecksFacts.
Context `{Lib}.

Lemma column_check_nonempty s :
  s <> [] ->
  exists v, column_unique_values_check (OneSeries s) = Ok v
            /\ ((1 < length (unique s))%nat -> v = Str "X").
Proof.
  intros Hs. unfold column_unique_values_check.
  destruct (Nat.ltb_spec 1 (length (unique s))) as [Hlt|Hle].
  - by eexists.
  - pose proof (unique_nonempty s Hs).
    destruct (unique s) as [|v l]; [done|]. eexists. split; [done|]. simpl in *. lia.
Qed.

Lemma column_check_single s v :
  unique s = [v] -> column_unique_values_check (OneSeries s) = Ok v.
Proof. intros Hu. unfold column_unique_values_check. by rewrite Hu. Qed.

Lemma not_all_eq_first_single s v :
  unique s = [v] -> not_all_eq_first (OneSeries s) = Ok (bool_decide (v = NaN)).
Proof.
  intros Hu. destruct (unique_single s v Hu) as [Hne Hall].
  unfold not_all_eq_first. destruct s as [|first s']; [done|].
  assert (first = v) as -> by (apply Hall; left).
  rewrite forallb_cell_eq_single by done.
  by rewrite negb_involutive.
Qed.

End ChecksFacts.

(** ** Validator *)

Lemma data_key_not_marker k year file_ : data_key k year file_ -> k <> "_data_error/".
Proof. intros (_ & _ & Hc & _) ->. vm_compute in Hc. discriminate. Qed.

Lemma data_key_truthy k year file_ : data_key k year file_ -> truthy (Some k) = true.
Proof. intros (Hlen & _). destruct k; [vm_compute in Hlen; discriminate|done]. Qed.

Lemma distinct_values_nonempty s : distinct_values s -> s <> [].
Proof. intros (a & _ & Ha & _) ->. by apply elem_of_nil in Ha. Qed.

Lemma length_nonempty {A} (l l' : list A) : length l = length l' -> l' <> [] -> l <> [].
Proof. by destruct l, l'. Qed.

Section ValidatorFacts.
Context `{Lib}.

Lemma unique_check_flags k data df s1 s2 s3 s4 :
  k <> "" ->
  read_csv spatial_dtype data = Ok df ->
  spatial_columns (strip_columns df) s1 s2 s3 s4 ->
  distinct_values s1 \/ distinct_values s2 \/ distinct_values s3 \/ distinct_values s4 ->
  unique_values_spatial_check k data = Ok (Some k).
Proof.
  intros Hk Hread (H1 & H2 & H3 & H4 & L2 & L3 & L4) Hd.
  assert (Hne : s1 <> []).
  { destruct Hd as [Hd|[Hd|[Hd|Hd]]]; apply distinct_values_nonempty in Hd;
      [done|..]; destruct s1; try done; destruct s2, s3, s4; done. }
  assert (s2 <> [] /\ s3 <> [] /\ s4 <> []) as (Hne2 & Hne3 & Hne4).
  { destruct s1; [done|]. by destruct s2, s3, s4. }
  destruct (column_check_nonempty s1 Hne) as (v1 & E1 & X1).
  destruct (column_check_nonempty s2 Hne2) as (v2 & E2 & X2).
  destruct (column_check_nonempty s3 Hne3) as (v3 & E3 & X3).
  destruct (column_check_nonempty s4 Hne4) as (v4 & E4 & X4).
  unfold unique_values_spatial_check, unique_values_spatial_check_body.
  rewrite Hread. cbn [mbind result_bind]. rewrite H1, H2, H3, H4.
  cbn [mbind result_bind]. rewrite E1, E2, E3, E4. cbn [mbind result_bind].
  assert (eq_X v1 || eq_X v2 || eq_X v3 || eq_X v4 = true) as HX.
  { destruct Hd as [Hd|[Hd|[Hd|Hd]]]; destruct Hd as (a & b & Ha & Hb & Hab);
      pose proof (unique_two_distinct _ a b Ha Hb Hab) as Hlt.
    - rewrite (X1 Hlt). done.
    - rewrite (X2 Hlt). simpl. by rewrite orb_true_r.
    - rewrite (X3 Hlt). simpl. by rewrite !orb_true_r.
    - rewrite (X4 Hlt). simpl. by rewrite !orb_true_r. }
  destruct (eq_X v1), (eq_X v2), (eq_X v3), (eq_X v4); done.
Qed.

(** C8 (as amended): a file with its four spatial columns present, one
    of which holds two distinct values, is quarantined as
    [non_unique_spatial] after a single read; the completeness check
    does not run. *)
Theorem non_unique_spatial_wins w st k year file_ o df s1 s2 s3 s4 :
  data_key k year file_ ->
  bucket w !! k = Some o ->
  read_csv spatial_dtype (Body o) = Ok df ->
  spatial_columns (strip_columns df) s1 s2 s3 s4 ->
  distinct_values s1 \/ distinct_values s2 \/ distinct_values s3 \/ distinct_values s4 ->
  let dest := error_key year (hd "" (Str.split "." file_)) "non_unique_spatial" in
  unique_values_spatial_check k (Body o) = Ok (Some k)
  /\ process_file st k w =
     (Ok st,
      {| bucket := delete k (<[dest := copied w o]>
                               (<["_data_error/" := marker w]> (bucket w)));
         now := now w;
         calls := calls w ++ GetObject k :: PutObject "_data_error/"
                             :: S3.copy_calls k dest o ++ [DeleteObject k] |}).
Proof.
  intros Hkey Hk Hread Hcols Hd dest.
  pose proof (data_key_truthy _ _ _ Hkey) as Ht.
  pose proof (data_key_not_marker _ _ _ Hkey) as Hm.
  assert (Hcheck : unique_values_spatial_check k (Body o) = Ok (Some k)).
  { apply (unique_check_flags k _ df s1 s2 s3 s4); try done.
    intros ->. by destruct Hkey as (Hlen & _). }
  split; [done|].
  destruct Hkey as (Hlen & Hya & Hde & Hsplit).
  unfold process_file.
  destruct (Z.leb_spec (Str.len k) 5) as [?|_]; [lia|].
  rewrite Hya, Hde. simpl.
  unfold validate, S3.get_object. rewrite Hk, Hcheck, Ht.
  set (w1 := record (GetObject k) (bucket w) w).
  rewrite (move_s3_file_ok w1 k year file_ "non_unique_spatial" o Hsplit)
    by (simpl; by rewrite lookup_insert_ne).
  simpl. fold dest. by rewrite <- app_assoc.
Qed.

End ValidatorFacts.

Lemma getitem_raise records label e :
  getitem records label = Raise e -> e = KeyError label.
Proof.
  unfold getitem. destruct (map snd _) as [|s [|s' l]]; congruence.
Qed.

Section ValidatorVerdicts.
Context `{Lib}.

Lemma column_check_raise sel e :
  column_unique_values_check sel = Raise e -> uncaught e.
Proof.
  destruct sel as [s|cols]; simpl; [|by intros [= <-]].
  destruct (1 <? length (unique s))%nat; [done|].
  destruct (unique s); [by intros [= <-]|done].
Qed.

Lemma spatial_value_raise records label e :
  getitem records label ≫= column_unique_values_check = Raise e -> uncaught e.
Proof.
  destruct (getitem records label) as [sel|e'] eqn:E; cbn [mbind result_bind].
  - apply column_check_raise.
  - intros [= <-]. by rewrite (getitem_raise _ _ _ E).
Qed.

Lemma unique_check_lacking k data df :
  read_csv spatial_dtype data = Ok df ->
  lacks_spatial_column (strip_columns df) ->
  exists e, unique_values_spatial_check k data = Raise e /\ uncaught e.
Proof.
  intros Hread (label & Hin & Hlack).
  unfold unique_values_spatial_check, unique_values_spatial_check_body.
  rewrite Hread. cbn [mbind result_bind].
  set (records := strip_columns df) in *.
  pose proof (spatial_value_raise records "STATION") as R1.
  pose proof (spatial_value_raise records "LATITUDE") as R2.
  pose proof (spatial_value_raise records "LONGITUDE") as R3.
  pose proof (spatial_value_raise records "ELEVATION") as R4.
  assert (Hcase : forall e, uncaught e ->
            exists e', match Raise e : result (option string) with
                       | Raise EmptyDataError | Raise ParserError => Ok (Some "X")
                       | r => r
                       end = Raise e' /\ uncaught e').
  { intros e He. exists e. by destruct e. }
  destruct (getitem records "STATION" ≫= column_unique_values_check)
    as [v1|e1] eqn:E1; [|by apply Hcase, R1].
  destruct (getitem records "LATITUDE" ≫= column_unique_values_check)
    as [v2|e2] eqn:E2; [|by apply Hcase, R2].
  destruct (getitem records "LONGITUDE" ≫= column_unique_values_check)
    as [v3|e3] eqn:E3; [|by apply Hcase, R3].
  destruct (getitem records "ELEVATION" ≫= column_unique_values_check)
    as [v4|e4] eqn:E4; [|by apply Hcase, R4].
  exfalso.
  repeat (apply elem_of_cons in Hin as [->|Hin];
          [rewrite Hlack in *; discriminate|]).
  by apply elem_of_nil in Hin.
Qed.

Lemma column_check_passes s v :
  column_unique_values_check (OneSeries s) = Ok v -> eq_X v = false ->
  unique s = [v].
Proof.
  unfold column_unique_values_check.
  destruct (Nat.ltb_spec 1 (length (unique s))) as [Hlt|Hle]; [by intros [= <-]|].
  destruct (unique s) as [|x [|y l]]; [done| |simpl in Hle; lia].
  by intros [= ->].
Qed.

Lemma unique_check_passes k data df s1 s2 s3 s4 :
  read_csv spatial_dtype data = Ok df ->
  spatial_columns (strip_columns df) s1 s2 s3 s4 ->
  unique_values_spatial_check k data = Ok None ->
  exists v1 v2 v3 v4,
    unique s1 = [v1] /\ unique s2 = [v2] /\ unique s3 = [v3] /\ unique s4 = [v4].
Proof.
  intros Hread (H1 & H2 & H3 & H4 & _).
  unfold unique_values_spatial_check, unique_values_spatial_check_body.
  rewrite Hread. cbn [mbind result_bind]. rewrite H1, H2, H3, H4.
  cbn [mbind result_bind].
  destruct (column_unique_values_check (OneSeries s1)) as [v1|e1] eqn:E1;
    [|by destruct e1].
  destruct (column_unique_values_check (OneSeries s2)) as [v2|e2] eqn:E2;
    [|by destruct e2].
  destruct (column_unique_values_check (OneSeries s3)) as [v3|e3] eqn:E3;
    [|by destruct e3].
  destruct (column_unique_values_check (OneSeries s4)) as [v4|e4] eqn:E4;
    [|by destruct e4].
  cbn [mbind result_bind].
  destruct (eq_X v1) eqn:X1; [done|]. destruct (eq_X v2) eqn:X2; [done|].
  destruct (eq_X v3) eqn:X3; [done|]. destruct (eq_X v4) eqn:X4; [done|].
  intros _. exists v1, v2, v3, v4.
  repeat split; by apply column_check_passes.
Qed.

Lemma clean_check_flags k data df s1 s2 s3 s4 v1 v2 v3 v4 :
  read_csv spatial_dtype data = Ok df ->
  spatial_columns (strip_columns df) s1 s2 s3 s4 ->
  unique s1 = [v1] -> unique s2 = [v2] -> unique s3 = [v3] -> unique s4 = [v4] ->
  NaN ∈ s1 \/ NaN ∈ s2 \/ NaN ∈ s3 \/ NaN ∈ s4 ->
  csv_clean_spatial_check k data = Ok (Some k).
Proof.
  intros Hread (H1 & H2 & H3 & H4 & _) U1 U2 U3 U4 Hnan.
  unfold csv_clean_spatial_check. rewrite Hread. cbn [mbind result_bind].
  unfold any_column_differs. rewrite H1, H2, H3, H4. cbn [mbind result_bind].
  rewrite (not_all_eq_first_single s1 v1 U1), (not_all_eq_first_single s2 v2 U2),
    (not_all_eq_first_single s3 v3 U3), (not_all_eq_first_single s4 v4 U4).
  cbn [mbind result_bind].
  assert (v1 = NaN \/ v2 = NaN \/ v3 = NaN \/ v4 = NaN) as Hv.
  { destruct Hnan as [Hn|[Hn|[Hn|Hn]]];
      [left|right; left|right; right; left|right; right; right];
      symmetry; eapply unique_single; eauto. }
  repeat case_bool_decide; try done.
  destruct Hv as [?|[?|[?|?]]]; congruence.
Qed.

End ValidatorVerdicts.

Section ValidatorClaims.
Context `{Lib}.

Lemma process_file_data_key st k year file_ w :
  data_key k year file_ ->
  process_file st k w =
    match validate k st w with
    | (Ok spatial_errors, (_, w)) => (Ok spatial_errors, w)
    | (Raise EmptyDataError, (spatial_errors, w)) =>
        (v ← read_spatial_errors spatial_errors;
         move_s3_file v "empty_data_error";;
         mret spatial_errors) w
    | (Raise (NoSuchKey _), (spatial_errors, w)) =>
        (v ← read_spatial_errors spatial_errors;
         move_s3_file v "no_such_key_error";;
         mret spatial_errors) w
    | (Raise e, (_, w)) => (Raise e, w)
    end.
Proof.
  intros (Hlen & Hya & Hde & _). unfold process_file.
  destruct (Z.leb_spec (Str.len k) 5) as [?|_]; [lia|].
  by rewrite Hya, Hde.
Qed.

(** C1 (as amended): with the four spatial columns present, a passing
    uniqueness check and a missing value in a spatial column, the file
    is quarantined as [missing_spatial] and the loop goes on; when a
    spatial column is absent the uniqueness check raises an exception
    that no handler catches, and the batch stops at that file with
    nothing quarantined. *)
Theorem missing_spatial_verdict w st k year file_ o df rest :
  data_key k year file_ ->
  bucket w !! k = Some o ->
  read_csv spatial_dtype (Body o) = Ok df ->
  (forall s1 s2 s3 s4,
      spatial_columns (strip_columns df) s1 s2 s3 s4 ->
      unique_values_spatial_check k (Body o) = Ok None ->
      NaN ∈ s1 \/ NaN ∈ s2 \/ NaN ∈ s3 \/ NaN ∈ s4 ->
      let dest := error_key year (hd "" (Str.split "." file_)) "missing_spatial" in
      for_each (k :: rest) process_file st w =
      for_each rest process_file (Some (Some k))
        {| bucket := delete k (<[dest := copied w o]>
                                 (<["_data_error/" := marker w]> (bucket w)));
           now := now w;
           calls := calls w ++ GetObject k :: GetObject k
                               :: PutObject "_data_error/"
                               :: S3.copy_calls k dest o ++ [DeleteObject k] |})
  /\ (lacks_spatial_column (strip_columns df) ->
      exists e, uncaught e
        /\ for_each (k :: rest) process_file st w
           = (Raise e, record (GetObject k) (bucket w) w)).
Proof.
  intros Hkey Hk Hread.
  pose proof (data_key_truthy _ _ _ Hkey) as Ht.
  pose proof (data_key_not_marker _ _ _ Hkey) as Hm.
  split.
  - intros s1 s2 s3 s4 Hcols Hpass Hnan dest.
    destruct (unique_check_passes k _ df s1 s2 s3 s4 Hread Hcols Hpass)
      as (v1 & v2 & v3 & v4 & U1 & U2 & U3 & U4).
    pose proof (clean_check_flags k _ df s1 s2 s3 s4 v1 v2 v3 v4
                  Hread Hcols U1 U2 U3 U4 Hnan) as Hclean.
    cbn [for_each]. unfold mbind at 1, M_bind at 1.
    rewrite (process_file_data_key st k year file_ w Hkey).
    destruct Hkey as (_ & _ & _ & Hsplit).
    unfold validate, S3.get_object. rewrite Hk, Hpass. cbn [truthy].
    cbn [bucket record]. rewrite Hk, Hclean, Ht.
    set (w2 := record (GetObject k) (bucket w) (record (GetObject k) (bucket w) w)).
    rewrite (move_s3_file_ok w2 k year file_ "missing_spatial" o Hsplit)
      by (simpl; by rewrite lookup_insert_ne).
    simpl. fold dest. by rewrite <- !app_assoc.
  - intros Hlack.
    destruct (unique_check_lacking k _ df Hread Hlack) as (e & Hcheck & He).
    exists e. split; [done|].
    cbn [for_each]. unfold mbind at 1, M_bind at 1.
    rewrite (process_file_data_key st k year file_ w Hkey).
    unfold validate, S3.get_object. rewrite Hk, Hcheck.
    by destruct e.
Qed.

(** C4: a file on which the reader raises [EmptyDataError] or
    [ParserError] stays where it is; the router is called on the key
    ["X"], so it copies nothing and deletes ["X"]. *)
Theorem malformed_file_stays w st k year file_ o :
  data_key k year file_ ->
  bucket w !! k = Some o ->
  read_csv spatial_dtype (Body o) = Raise EmptyDataError
  \/ read_csv spatial_dtype (Body o) = Raise ParserError ->
  let w' := {| bucket := delete "X" (<["_data_error/" := marker w]> (bucket w));
               now := now w;
               calls := calls w ++ [GetObject k; PutObject "_data_error/";
                                    DeleteObject "X"] |} in
  process_file st k w = (Ok st, w') /\ bucket w' !! k = Some o.
Proof.
  intros Hkey Hk Hread w'.
  pose proof (data_key_not_marker _ _ _ Hkey) as Hm.
  assert (Hcheck : unique_values_spatial_check k (Body o) = Ok (Some "X")).
  { unfold unique_values_spatial_check, unique_values_spatial_check_body.
    by destruct Hread as [-> | ->]. }
  split.
  - rewrite (process_file_data_key st k year file_ w Hkey).
    unfold validate, S3.get_object. rewrite Hk, Hcheck. cbn [truthy String.eqb negb].
    rewrite (move_s3_file_unsplit _ "X" "X") by reflexivity.
    simpl. subst w'. by rewrite <- !app_assoc.
  - subst w'. simpl.
    assert (k <> "X").
    { intros ->. destruct Hkey as (Hlen & _). vm_compute in Hlen. discriminate. }
    rewrite lookup_delete_ne by done. by rewrite lookup_insert_ne.
Qed.

(** C6: when the first key of a batch is absent at read time, the
    handler reads the unbound [spatial_errors]; the batch stops with
    that error and nothing is quarantined. *)
Theorem vanished_key_aborts w k year file_ rest :
  data_key k year file_ ->
  bucket w !! k = None ->
  process_year_files (k :: rest) w =
    (Raise (UnboundLocalError "spatial_errors"), record (GetObject k) (bucket w) w).
Proof.
  intros Hkey Hk. unfold process_year_files.
  cbn [for_each]. unfold mbind at 1 2, M_bind at 1 2.
  rewrite (process_file_data_key None k year file_ w Hkey).
  unfold validate, S3.get_object. by rewrite Hk.
Qed.

End ValidatorClaims.

(** *** The validator on sample files *)

Lemma sample_data_key :
  data_key "1929/01001099999.csv" "1929" "01001099999.csv".
Proof. repeat split. Defined.

Lemma non_unique_spatial_wins_witness :
  let k := "1929/01001099999.csv" in
  let w := World.one k World.drifting in
  let dest := "_data_error/1929-01001099999-non_unique_spatial.csv" in
  unique_values_spatial_check k World.drifting = Ok (Some k)
  /\ process_file None k w =
     (Ok None,
      {| bucket := delete k (<[dest := copied w (World.obj World.drifting 0)]>
                               (<["_data_error/" := marker w]> (bucket w)));
         now := now w;
         calls := calls w ++ [GetObject k; PutObject "_data_error/";
                              HeadObject k; CopyObject k dest; DeleteObject k] |}).
Proof.
  intros k w dest.
  eapply (non_unique_spatial_wins w None k "1929" "01001099999.csv"
            (World.obj World.drifting 0) (World.frame World.drifting)
            [Int 1001099999; Int 1001099999] [Str "70.9"; Str "70.93"]
            [Str "-8.66"; Str "-8.66"] [Str "9.0"; Str "9.0"]).
  - exact sample_data_key.
  - reflexivity.
  - vm_compute. reflexivity.
  - vm_compute. repeat split.
  - right. left. exists (Str "70.9"), (Str "70.93").
    split; [left|split; [right; left|discriminate]].
Defined.

(** C8, refuted as stated: the latitude drifts, yet with the elevation
    column absent the verdict is an uncaught [KeyError] and the file is
    still in place. *)
Lemma non_unique_without_elevation_aborts :
  let k := "1929/01001099999.csv" in
  let w := World.one k World.drifting_no_elevation in
  (exists df s, read_csv spatial_dtype World.drifting_no_elevation = Ok df
                /\ getitem (strip_columns df) "LATITUDE" = Ok (OneSeries s)
                /\ distinct_values s)
  /\ fst (process_year_files [k] w) = Raise (KeyError "ELEVATION")
  /\ bucket (snd (process_year_files [k] w)) = bucket w.
Proof.
  intros k w. split; [|by vm_compute].
  eexists. exists [Str "70.9"; Str "70.93"].
  split; [vm_compute; reflexivity|]. split; [by vm_compute|].
  exists (Str "70.9"), (Str "70.93").
  split; [left|split; [right; left|discriminate]].
Qed.

Lemma missing_spatial_verdict_witness :
  let k := "1929/01001099999.csv" in
  let w := World.one k World.blank_elevation in
  let dest := "_data_error/1929-01001099999-missing_spatial.csv" in
  for_each [k] process_file None w =
  for_each [] process_file (Some (Some k))
    {| bucket := delete k (<[dest := copied w (World.obj World.blank_elevation 0)]>
                             (<["_data_error/" := marker w]> (bucket w)));
       now := now w;
       calls := calls w ++ [GetObject k; GetObject k; PutObject "_data_error/";
                            HeadObject k; CopyObject k dest; DeleteObject k] |}.
Proof.
  intros k w dest.
  edestruct (missing_spatial_verdict w None k "1929" "01001099999.csv"
               (World.obj World.blank_elevation 0) (World.frame World.blank_elevation)
               [] sample_data_key eq_refl)
    as [Hquarantined _].
  - vm_compute. reflexivity.
  - apply (Hquarantined [Int 1001099999; Int 1001099999] [Str "70.93"; Str "70.93"]
             [Str "-8.66"; Str "-8.66"] [NaN; NaN]).
    + vm_compute. repeat split.
    + vm_compute. reflexivity.
    + right. right. right. left.
Defined.

(** C1, refuted as stated: the file parses and lacks the elevation
    column; the batch raises [KeyError] and nothing is quarantined. *)
Lemma missing_column_aborts :
  let k := "1929/01001099999.csv" in
  let w := World.one k World.no_elevation in
  (exists df, read_csv spatial_dtype World.no_elevation = Ok df
              /\ getitem (strip_columns df) "ELEVATION" = Raise (KeyError "ELEVATION"))
  /\ fst (process_year_files [k] w) = Raise (KeyError "ELEVATION")
  /\ bucket (snd (process_year_files [k] w)) = bucket w.
Proof.
  intros k w. split; [|by vm_compute].
  eexists. split; [vm_compute; reflexivity|]. by vm_compute.
Qed.

Lemma malformed_file_stays_witness :
  let k := "1929/01001099999.csv" in
  let w := World.one k "" in
  let w' := {| bucket := delete "X" (<["_data_error/" := marker w]> (bucket w));
               now := now w;
               calls := calls w ++ [GetObject k; PutObject "_data_error/";
                                    DeleteObject "X"] |} in
  process_file None k w = (Ok None, w')
  /\ bucket w' !! k = Some (World.obj "" 0).
Proof.
  intros k w.
  apply (malformed_file_stays w None k "1929" "01001099999.csv" (World.obj "" 0)
           sample_data_key eq_refl).
  left. vm_compute. reflexivity.
Defined.

Lemma vanished_key_aborts_witness :
  process_year_files ["1929/01001099999.csv"; "1929/01002099999.csv"]
    (World.one "1929/01002099999.csv" World.good)
  = (Raise (UnboundLocalError "spatial_errors"),
     record (GetObject "1929/01001099999.csv")
       (bucket (World.one "1929/01002099999.csv" World.good))
       (World.one "1929/01002099999.csv" World.good)).
Proof.
  apply (vanished_key_aborts (World.one "1929/01002099999.csv" World.good)
           "1929/01001099999.csv" "1929" "01001099999.csv"
           ["1929/01002099999.csv"] sample_data_key).
  vm_compute. reflexivity.
Defined.

(** After a file that passed both checks, [spatial_errors] is [None]:
    the handler for the vanished key then fails inside the router. *)
Example vanished_key_after_valid_file :
  fst (process_year_files ["1929/01002099999.csv"; "1929/01001099999.csv"]
         (World.one "1929/01002099999.csv" World.good))
  = Raise AttributeError.
Proof. by vm_compute. Qed.

(** ** Aggregator *)

Lemma string_app_nil_r s : s +:+ "" = s.
Proof. induction s as [|a s IH]; [done|]. by rewrite string_app_cons, IH. Qed.

Lemma string_app_assoc s t u : (s +:+ t) +:+ u = s +:+ (t +:+ u).
Proof. induction s as [|a s IH]; [done|]. by rewrite !string_app_cons, IH. Qed.

Lemma count_app c s t : Str.count c (s +:+ t) = (Str.count c s + Str.count c t)%nat.
Proof.
  induction s as [|a s IH]; [done|]. rewrite string_app_cons. simpl. rewrite IH. lia.
Qed.

Lemma count_join_rows c rows :
  Forall (fun row => Str.count c row = 1%nat) rows ->
  Str.count c (join_rows rows) = length rows.
Proof.
  induction 1 as [|row rows Hrow _ IH]; [done|].
  simpl. rewrite count_app, Hrow, IH. done.
Qed.

Section AggregatorFacts.
Context `{Lib}.

Lemma add_site_handled content site w :
  site_handled (site_result (bucket w) site) ->
  exists w1,
    add_site content site w =
      (Ok (content +:+ from_option id "" (site_row_opt (bucket w) site)), w1)
    /\ bucket w1 = bucket w /\ now w1 = now w.
Proof.
  unfold site_handled, site_row_opt, site_result, add_site, try_except,
    mbind at 2 3 4, M_bind, S3.get_object, lift.
  destruct (bucket w !! site) as [o|]; [|done].
  destruct (read_csv [] (Body o)) as [df|e]; cbn [mbind result_bind].
  - destruct (site_row df) as [row|e]; intros Hh.
    + by eexists.
    + destruct e; try done; eexists; by rewrite string_app_nil_r.
  - intros Hh. destruct e; try done; eexists; by rewrite string_app_nil_r.
Qed.

Lemma for_each_add_site sites content w :
  Forall (fun site => site_handled (site_result (bucket w) site)) sites ->
  exists w1,
    for_each sites add_site content w =
      (Ok (content +:+ join_rows (omap (site_row_opt (bucket w)) sites)), w1)
    /\ bucket w1 = bucket w /\ now w1 = now w.
Proof.
  intros Hsites. revert content w Hsites.
  induction sites as [|site sites IH]; intros content w Hsites.
  - exists w. simpl. by rewrite string_app_nil_r.
  - apply Forall_cons in Hsites as [Hsite Hsites].
    destruct (add_site_handled content site w Hsite) as (w1 & E1 & Hb1 & Hn1).
    rewrite <- Hb1 in Hsites.
    destruct (IH (content +:+ from_option id "" (site_row_opt (bucket w) site))
                w1 Hsites) as (w2 & E2 & Hb2 & Hn2).
    exists w2. cbn [for_each]. unfold mbind, M_bind. rewrite E1, E2, Hb1.
    split; [|split; congruence]. f_equal. f_equal.
    rewrite string_app_assoc. f_equal. cbn [omap list_omap].
    by destruct (site_row_opt (bucket w) site).
Qed.

(** The skip of a year whose summary is among the finished files. *)
Lemma calculate_year_csv_skips year finished w :
  summary_key year ∈ finished ->
  calculate_year_csv year finished false w = (Ok tt, w).
Proof.
  intros Hin. unfold calculate_year_csv.
  by rewrite bool_decide_eq_true_2.
Qed.

(** C9 (as amended): when every listed file either yields its row or
    raises one of the two reader errors, and every row is one line, the
    summary is the header followed by the rows of the files that
    yielded one, in listing order; it replaces the object under the
    summary key and has one line more than there are rows. *)
Theorem summary_is_header_and_rows year finished calc_all w files_l :
  calc_all = true \/ summary_key year ∉ finished ->
  fst (aws_year_files year w) = Ok files_l ->
  let sites := filter (fun x => 6 < Str.len x) files_l in
  let rows := omap (site_row_opt (bucket w)) sites in
  Forall (fun site => site_handled (site_result (bucket w) site)) sites ->
  Forall (fun row => Str.count "010" row = 1%nat) rows ->
  exists w',
    calculate_year_csv year finished calc_all w = (Ok tt, w')
    /\ bucket w' =
       <[summary_key year :=
           {| Body := columns +:+ join_rows rows; LastModified := now w;
              Metadata := ∅ |}]> (bucket w)
    /\ Str.count "010" (columns +:+ join_rows rows) = S (length rows)
    /\ length rows = length (filter (fun site => is_Some (site_row_opt (bucket w) site)) sites).
Proof.
  intros Hrun Hlist sites rows Hsites Hrows.
  unfold calculate_year_csv.
  assert (negb calc_all && bool_decide (summary_key year ∈ finished) = false) as ->.
  { destruct Hrun as [->|Hnot]; [done|].
    rewrite (bool_decide_eq_false_2 _ Hnot). by destruct calc_all. }
  destruct (aws_year_files_frame year w) as [Hb1 Hn1].
  destruct (aws_year_files year w) as [r w1] eqn:E. simpl in Hlist, Hb1, Hn1. subst r.
  unfold mbind at 1, M_bind at 1. rewrite E. fold sites.
  assert (Hsites1 : Forall (fun site => site_handled (site_result (bucket w1) site))
                      sites) by (by rewrite Hb1).
  destruct (for_each_add_site sites columns w1 Hsites1) as (w2 & E2 & Hb2 & Hn2).
  unfold mbind, M_bind. rewrite E2.
  eexists. split; [reflexivity|]. simpl. rewrite Hb2, Hn2, Hb1, Hn1. fold rows.
  split; [done|]. split.
  - rewrite count_app, (count_join_rows _ _ Hrows). done.
  - subst rows. clear. induction sites as [|site sites IH]; [done|].
    cbn [omap list_omap]. rewrite filter_cons.
    destruct (site_row_opt (bucket w) site); case_decide as Hd; simpl;
      try (by rewrite IH); by destruct Hd.
Qed.

End AggregatorFacts.

(** *** The aggregator on sample stores *)

Lemma summary_is_header_and_rows_witness :
  let w := World.year_1929 in
  let files_l := ["1929/01001099999.csv"; "1929/01002099999.csv"] in
  let sites := filter (fun x => 6 < Str.len x) files_l in
  let rows := omap (site_row_opt (bucket w)) sites in
  exists w',
    calculate_year_csv "1929" [] false w = (Ok tt, w')
    /\ bucket w' =
       <[summary_key "1929" :=
           {| Body := columns +:+ join_rows rows; LastModified := now w;
              Metadata := ∅ |}]> (bucket w)
    /\ Str.count "010" (columns +:+ join_rows rows) = S (length rows)
    /\ length rows = length (filter (fun site => is_Some (site_row_opt (bucket w) site)) sites).
Proof.
  intros w files_l.
  apply (summary_is_header_and_rows "1929" [] false w files_l).
  - right. apply not_elem_of_nil.
  - vm_compute. reflexivity.
  - vm_compute. repeat constructor.
  - vm_compute. repeat constructor.
Defined.

Example summary_of_1929 :
  Body <$> (bucket (snd (calculate_year_csv "1929" [] false World.year_1929))
              !! "year_average/avg_1929.csv")
  = Some (columns +:+
          "[1001099999],['70.93'],['-8.66'],['9.0'],55.0,45.0,1001.0,50.0,60.0,0.0" +:+ Str.nl).
Proof. vm_compute. reflexivity. Qed.

(** C9, refuted as stated: the only file of the year parses, but has no
    temperature column; the aggregator raises and writes no summary. *)
Lemma parsed_file_without_column_aborts_year :
  let w := World.one "1929/01001099999.csv" World.no_temp in
  (exists df, read_csv [] World.no_temp = Ok df)
  /\ fst (calculate_year_csv "1929" [] false w) = Raise (KeyError "TEMP")
  /\ bucket (snd (calculate_year_csv "1929" [] false w)) !! summary_key "1929" = None.
Proof.
  intros w. split; [eexists; vm_compute; reflexivity|]. by vm_compute.
Qed.

(** C3: the summary of 1929 exists, the flag is off, and the summary is
    older than the listing's time window: the listing that feeds the
    aggregator leaves it out, the data file is read and the summary is
    overwritten. *)
Theorem stale_summary_is_recomputed :
  let w := World.stale_summary in
  let r := flow_calculate_year "1929" 1 true false w in
  bucket w !! summary_key "1929" = Some (World.obj "stale" 0)
  /\ fst (aws_all_year_files "year_average" 1 true w) = Ok []
  /\ fst r = Ok tt
  /\ GetObject "1929/01001099999.csv" ∈ calls (snd r)
  /\ Body <$> (bucket (snd r) !! summary_key "1929")
     = Some (columns +:+
             "[1001099999],['70.93'],['-8.66'],['9.0'],55.0,45.0,1001.0,50.0,60.0,0.0" +:+ Str.nl).
Proof.
  intros w r. repeat split; try (vm_compute; reflexivity).
  vm_compute. right. right. left.
Qed.

(** * Further properties *)

(** ** Batcher: sizes outside the intended range *)

Lemma slice_drop_last {A} (l : list A) (M : Z) :
  M < 0 -> Py.slice l 0 M = take (length l - Z.to_nat (- M)) l.
Proof.
  intros HM. unfold Py.slice, Py.clamp. simpl.
  destruct (Z.ltb_spec M 0) as [_|?]; [|lia].
  rewrite (Z.min_l 0) by lia. simpl. rewrite drop_0, Nat.sub_0_r.
  f_equal. lia.
Qed.

(** A chunk size of zero makes the batcher raise; a negative chunk size
    makes it return no batch at all, whatever keys it was given. *)
Theorem batch_nonpositive_size (file_l : list (list string)) (C M : Z) :
  C <= 0 ->
  aws_lists_prep_for_map file_l C M =
    if C =? 0 then Raise (ValueError "range() arg 3 must not be zero") else Ok [].
Proof.
  intros HC. unfold aws_lists_prep_for_map, chunks, Py.range.
  destruct (Z.eqb_spec C 0) as [->|Hne]; [done|].
  destruct (Z.ltb_spec 0 C) as [?|_]; [lia|].
  set (n := Z.of_nat (length (Py.slice (concat file_l) 0 M))).
  assert ((0 - n - C - 1) / - C <= 0) as Hq.
  { apply Z.lt_succ_r. apply Z.div_lt_upper_bound; lia. }
  replace (Z.to_nat ((0 - n - C - 1) / - C)) with 0%nat by lia. done.
Qed.

Lemma batch_nonpositive_size_witness :
  aws_lists_prep_for_map [["a"; "b"]; ["c"]] (-2) 5 = Ok [].
Proof. apply (batch_nonpositive_size [["a"; "b"]; ["c"]] (-2) 5). lia. Defined.

(** The number of batches is the number of dispatched keys divided by
    the chunk size, rounded up, and no more than [M] keys are dispatched. *)
Theorem batch_count (file_l : list (list string)) (C M : Z) :
  1 <= C -> 0 <= M ->
  let n := Z.min M (Z.of_nat (length (concat file_l))) in
  exists batches,
    aws_lists_prep_for_map file_l C M = Ok batches
    /\ Z.of_nat (length batches) = (n + C - 1) / C
    /\ Z.of_nat (length (concat batches)) = n.
Proof.
  intros HC HM n. unfold aws_lists_prep_for_map.
  rewrite slice_prefix by done.
  set (l := take (Z.to_nat M) (concat file_l)).
  assert (Hl : Z.of_nat (length l) = n).
  { subst l n. rewrite length_take. lia. }
  destruct (chunks_spec l C HC) as (Hch & Hcov & _ & _).
  eexists. split; [exact Hch|]. split.
  - rewrite length_map, length_seq, Hl.
    apply Z2Nat.id, Z.div_pos; lia.
  - rewrite concat_take_drop, take_ge by exact Hcov. done.
Qed.

Lemma batch_count_witness :
  let n := Z.min 5 (Z.of_nat (length (concat [["a"; "b"; "c"]; ["d"; "e"; "f"; "g"]]))) in
  exists batches,
    aws_lists_prep_for_map [["a"; "b"; "c"]; ["d"; "e"; "f"; "g"]] 2 5 = Ok batches
    /\ Z.of_nat (length batches) = (n + 2 - 1) / 2
    /\ Z.of_nat (length (concat batches)) = n.
Proof.
  apply (batch_count [["a"; "b"; "c"]; ["d"; "e"; "f"; "g"]] 2 5); lia.
Defined.

(** A negative maximum does not mean "nothing": the keys dispatched are
    all but the last [-M] of the flattened list. *)
Theorem batch_negative_max (file_l : list (list string)) (C M : Z) :
  1 <= C -> M < 0 ->
  exists batches,
    aws_lists_prep_for_map file_l C M = Ok batches
    /\ concat batches
       = take (length (concat file_l) - Z.to_nat (- M)) (concat file_l).
Proof.
  intros HC HM. unfold aws_lists_prep_for_map.
  rewrite slice_drop_last by done.
  set (l := take _ (concat file_l)).
  destruct (chunks_spec l C HC) as (Hch & Hcov & _ & _).
  eexists. split; [exact Hch|].
  rewrite concat_take_drop, take_ge by exact Hcov. done.
Qed.

Lemma batch_negative_max_witness :
  exists batches,
    aws_lists_prep_for_map [["a"; "b"; "c"]] 2 (-1) = Ok batches
    /\ concat batches
       = take (length (concat [["a"; "b"; "c"]]) - Z.to_nat (- -1))
           (concat [["a"; "b"; "c"]]).
Proof. apply (batch_negative_max [["a"; "b"; "c"]] 2 (-1)); lia. Defined.

(** ** Discovery: what the listings return *)

Lemma split_pages_concat {A} (l : list A) : concat (S3.split_pages l) = l.
Proof.
  unfold S3.split_pages.
  assert (Hp : (0 < S3.page_size)%nat) by (unfold S3.page_size; lia).
  revert Hp. generalize S3.page_size. intros c Hc.
  rewrite concat_take_drop. apply take_ge.
  pose proof (Nat.div_mod_eq (length l + c - 1) c) as Hdm.
  pose proof (Nat.mod_upper_bound (length l + c - 1) c ltac:(lia)) as Hmod.
  nia.
Qed.

Lemma split_pages_length {A} (l : list A) :
  length (S3.split_pages l) = ((length l + 999) / 1000)%nat.
Proof.
  unfold S3.split_pages, S3.page_size. rewrite length_map, length_seq.
  f_equal. lia.
Qed.

(** The first page of a listing that is not empty holds its first key. *)
Lemma split_pages_cons {A} (x : A) (l : list A) :
  exists p ps, S3.split_pages (x :: l) = (x :: p) :: ps.
Proof.
  unfold S3.split_pages.
  destruct ((length (x :: l) + S3.page_size - 1) / S3.page_size)%nat as [|m] eqn:E.
  - apply Nat.div_small_iff in E; [|done]. cbn [length] in E. lia.
  - exists (take 999 l), (map (fun k => take S3.page_size
                                     (drop (k * S3.page_size) (x :: l))) (seq 1 m)).
    reflexivity.
Qed.

Lemma filter_concat {A} (P : A -> Prop) `{forall x, Decision (P x)} (ls : list (list A)) :
  filter P (concat ls) = concat (map (filter P) ls).
Proof.
  induction ls as [|l ls IH]; [done|]. simpl. by rewrite filter_app, IH.
Qed.

(** The loop over the pages of a non-empty listing, when every page
    adds the keys [g] selects from it. *)
Lemma for_each_pages (body : gset string -> S3.page -> M (gset string))
    (g : list (string * Z) -> list string)
    (pages : list (list (string * Z))) (acc : gset string) (w : world) :
  (forall acc p, body acc (Some p) w = (Ok (acc ∪ list_to_set (g p)), w)) ->
  for_each (map Some pages) body acc w
  = (Ok (acc ∪ list_to_set (concat (map g pages))), w).
Proof.
  intros Hbody. revert acc. induction pages as [|p pages IH]; intros acc.
  - cbn [map for_each concat]. unfold mret, M_ret.
    by rewrite list_to_set_nil, union_empty_r_L.
  - cbn [map for_each]. unfold mbind at 1, M_bind at 1.
    rewrite Hbody, IH. do 2 f_equal.
    cbn [map concat]. by rewrite list_to_set_app_L, (assoc_L (∪)).
Qed.

Lemma M_bind_ok {A B} (m : M A) (f : A -> M B) w a w1 :
  m w = (Ok a, w1) -> (m ≫= f) w = f a w1.
Proof. unfold mbind, M_bind. by intros ->. Qed.

(** The pager sends one request for every thousand keys under the
    prefix, and one for an empty listing. *)
Lemma paginate_run prefix w :
  S3.paginate prefix w =
    (Ok (match S3.matching prefix (bucket w) with
         | [] => [None]
         | entries => map Some (S3.split_pages entries)
         end), S3.listed prefix (page_count prefix (bucket w)) w).
Proof.
  unfold S3.paginate, page_count. do 2 f_equal.
  destruct (S3.matching prefix (bucket w)) as [|e entries]; [done|].
  rewrite length_map, split_pages_length.
  symmetry. apply Nat.max_r. apply Nat.div_str_pos. cbn [length]. lia.
Qed.

Lemma aws_year_files_run year w :
  aws_year_files year w =
    (match S3.matching year (bucket w) with
     | [] => Raise (KeyError "Contents")
     | entries => Ok (sorted (list_to_set (map fst entries)))
     end, S3.listed year (page_count year (bucket w)) w).
Proof.
  unfold aws_year_files. rewrite (M_bind_ok _ _ _ _ _ (paginate_run year w)).
  destruct (S3.matching year (bucket w)) as [|e entries] eqn:E; [done|].
  set (l := e :: entries).
  rewrite (M_bind_ok _ _ _ _ _
             (for_each_pages _ (map fst) (S3.split_pages l) ∅ _
                (fun _ _ => eq_refl))).
  unfold mret, M_ret.
  rewrite <- concat_map, split_pages_concat, union_empty_l_L. done.
Qed.

Lemma threshold_ok now min_old :
  in_timedelta (minutes min_old) -> representable (now - minutes min_old) ->
  threshold now min_old = Ok (now - minutes min_old).
Proof.
  intros Hd Hr. unfold threshold. by rewrite !decide_True.
Qed.

Lemma threshold_overflow now min_old :
  ~ (in_timedelta (minutes min_old) /\ representable (now - minutes min_old)) ->
  threshold now min_old = Raise OverflowError.
Proof.
  intros Hn. unfold threshold.
  destruct (decide (in_timedelta (minutes min_old))); [|done].
  destruct (decide (representable (now - minutes min_old))); [|done].
  by destruct Hn.
Qed.

Lemma keys_if_filter cond (P : string * Z -> Prop) `{forall x, Decision (P x)} l :
  (forall x, cond x = Ok (bool_decide (P x))) ->
  keys_if cond l = Ok (map fst (filter P l)).
Proof.
  intros Hc. induction l as [|x l IH]; [done|].
  cbn [keys_if]. rewrite Hc, IH, filter_cons.
  destruct (decide (P x)) as [Hp|Hp].
  - by rewrite (bool_decide_eq_true_2 _ Hp).
  - by rewrite (bool_decide_eq_false_2 _ Hp).
Qed.

Lemma aws_all_year_files_run year min_old time_less_than w :
  in_timedelta (minutes min_old) -> representable (now w - minutes min_old) ->
  aws_all_year_files year min_old time_less_than w =
    (match S3.matching year (bucket w) with
     | [] => Raise (KeyError "Contents")
     | entries =>
         Ok (sorted (list_to_set (map fst
               (if time_less_than
                then filter (fun x => now w - minutes min_old < snd x) entries
                else filter (fun x => snd x < now w - minutes min_old) entries))))
     end, S3.listed year (page_count year (bucket w)) w).
Proof.
  intros Hd Hr.
  unfold aws_all_year_files. rewrite (M_bind_ok _ _ _ _ _ (paginate_run year w)).
  destruct (S3.matching year (bucket w)) as [|e entries] eqn:E; [done|].
  set (l := e :: entries).
  set (g := fun p : list (string * Z) =>
              if time_less_than
              then map fst (filter (fun x => now w - minutes min_old < snd x) p)
              else map fst (filter (fun x => snd x < now w - minutes min_old) p)).
  match goal with |- (for_each _ ?b _ ≫= _) ?w1 = _ =>
    assert (Hbody : forall acc p, b acc (Some p) w1 = (Ok (acc ∪ list_to_set (g p)), w1))
  end.
  { intros acc p. unfold mbind, M_bind, contents, mret, M_ret, lift, g.
    cbn [S3.listed now].
    destruct time_less_than.
    - rewrite (keys_if_filter _ (fun x => now w - minutes min_old < snd x)); [done|].
      intros x. unfold modified_after. by rewrite threshold_ok.
    - rewrite (keys_if_filter _ (fun x => snd x < now w - minutes min_old)); [done|].
      intros x. unfold modified_before. by rewrite threshold_ok. }
  rewrite (M_bind_ok _ _ _ _ _ (for_each_pages _ g (S3.split_pages l) ∅ _ Hbody)).
  unfold mret, M_ret. rewrite union_empty_l_L. do 3 f_equal.
  unfold g. destruct time_less_than.
  - rewrite <- (map_map (filter _) (map fst)), <- concat_map, <- filter_concat.
    by rewrite split_pages_concat.
  - rewrite <- (map_map (filter _) (map fst)), <- concat_map, <- filter_concat.
    by rewrite split_pages_concat.
Qed.

(** A filtered listing that returns has computed its threshold. *)
Lemma aws_all_year_files_returns year min_old time_less_than w files :
  fst (aws_all_year_files year min_old time_less_than w) = Ok files ->
  in_timedelta (minutes min_old) /\ representable (now w - minutes min_old).
Proof.
  intros Hok.
  destruct (decide (in_timedelta (minutes min_old)
                    /\ representable (now w - minutes min_old))) as [|Hn]; [done|].
  exfalso. revert Hok.
  unfold aws_all_year_files. rewrite (M_bind_ok _ _ _ _ _ (paginate_run year w)).
  destruct (S3.matching year (bucket w)) as [|e entries]; [done|].
  destruct (split_pages_cons e entries) as (p & ps & ->).
  cbn [map for_each]. unfold mbind, M_bind, contents, mret, M_ret, lift.
  cbn [S3.listed now keys_if]. unfold modified_after, modified_before.
  rewrite (threshold_overflow _ _ Hn). by destruct time_less_than.
Qed.

Lemma elem_of_matching prefix (b : gmap string s3_object) k t :
  (k, t) ∈ S3.matching prefix b <->
  exists o, b !! k = Some o /\ LastModified o = t /\ String.prefix prefix k = true.
Proof.
  unfold S3.matching. rewrite merge_sort_Permutation.
  rewrite list_elem_of_fmap. split.
  - intros ([k' o] & [= -> ->] & Hin). apply list_elem_of_filter in Hin as [Hp Hin].
    apply elem_of_map_to_list in Hin. by exists o.
  - intros (o & Hk & <- & Hp). exists (k, o). split; [done|].
    apply list_elem_of_filter. split; [done|]. by apply elem_of_map_to_list.
Qed.

Lemma sorted_spec (s : gset string) :
  StronglySorted String.le (sorted s) /\ NoDup (sorted s)
  /\ forall k, k ∈ sorted s <-> k ∈ s.
Proof.
  unfold sorted. split; [apply StronglySorted_merge_sort; apply _|]. split.
  - rewrite merge_sort_Permutation. apply NoDup_elements.
  - intros k. rewrite merge_sort_Permutation. apply elem_of_elements.
Qed.

Lemma aws_all_year_files_elem year min_old time_less_than w files :
  fst (aws_all_year_files year min_old time_less_than w) = Ok files ->
  forall k, k ∈ files <->
    exists o, bucket w !! k = Some o /\ String.prefix year k = true
              /\ (if time_less_than then now w - minutes min_old < LastModified o
                  else LastModified o < now w - minutes min_old).
Proof.
  intros Hok. destruct (aws_all_year_files_returns _ _ _ _ _ Hok) as [Hd Hr].
  revert Hok. rewrite aws_all_year_files_run by done. cbn [fst].
  destruct (S3.matching year (bucket w)) as [|e entries] eqn:E; [done|].
  rewrite <- E. intros [= <-] k.
  destruct (sorted_spec (list_to_set (map fst
              (if time_less_than
               then filter (fun x => now w - minutes min_old < snd x)
                      (S3.matching year (bucket w))
               else filter (fun x => snd x < now w - minutes min_old)
                      (S3.matching year (bucket w)))))) as (_ & _ & ->).
  rewrite elem_of_list_to_set, list_elem_of_fmap. split.
  - intros ([k' t] & -> & Hin). cbn [fst].
    destruct time_less_than; apply list_elem_of_filter in Hin as [Ht Hin];
      apply elem_of_matching in Hin as (o & Hk & <- & Hp); by exists o.
  - intros (o & Hk & Hp & Ht). exists (k, LastModified o). split; [done|].
    destruct time_less_than; apply list_elem_of_filter; (split; [done|]);
      apply elem_of_matching; by exists o.
Qed.

(** Under a prefix that holds at least one object, the yearly listing
    returns exactly the keys with that prefix, in ascending order and
    without repetition; it sends one listing request for every thousand
    keys under the prefix and changes nothing in the bucket. *)
Theorem aws_year_files_lists_prefix year w :
  (exists key, is_Some (bucket w !! key) /\ String.prefix year key = true) ->
  exists files,
    aws_year_files year w
    = (Ok files, S3.listed year (page_count year (bucket w)) w)
    /\ StronglySorted String.le files /\ NoDup files
    /\ forall k, k ∈ files <-> is_Some (bucket w !! k) /\ String.prefix year k = true.
Proof.
  intros (key & [o Hk] & Hp). rewrite aws_year_files_run.
  assert (Hin : (key, LastModified o) ∈ S3.matching year (bucket w))
    by (apply elem_of_matching; by exists o).
  destruct (S3.matching year (bucket w)) as [|e entries] eqn:E;
    [by apply elem_of_nil in Hin|].
  rewrite <- E. eexists. split; [reflexivity|].
  destruct (sorted_spec (list_to_set (map fst (S3.matching year (bucket w)))))
    as (Hs & Hn & Hel).
  split; [done|]. split; [done|]. intros k. rewrite Hel.
  rewrite elem_of_list_to_set, list_elem_of_fmap. split.
  - intros ([k' t] & -> & Hm). apply elem_of_matching in Hm as (o' & ? & _ & ?).
    split; [by exists o'|done].
  - intros ([o' Ho'] & Hp'). exists (k, LastModified o'). split; [done|].
    apply elem_of_matching. by exists o'.
Qed.

Lemma aws_year_files_lists_prefix_witness :
  exists files,
    aws_year_files "1929" World.year_1929
    = (Ok files, S3.listed "1929" (page_count "1929" (bucket World.year_1929))
                   World.year_1929)
    /\ StronglySorted String.le files /\ NoDup files
    /\ forall k, k ∈ files <->
         is_Some (bucket World.year_1929 !! k) /\ String.prefix "1929" k = true.
Proof.
  apply (aws_year_files_lists_prefix "1929" World.year_1929).
  exists "1929/01001099999.csv". split; [eexists|]; reflexivity.
Defined.

(** A year of 2500 files is listed in three requests. *)
Example page_count_of_2500 (b : gmap string s3_object) :
  length (S3.matching "1929" b) = 2500%nat -> page_count "1929" b = 3%nat.
Proof. unfold page_count. by intros ->. Qed.

(** Under a prefix that holds at least one object, and with a threshold
    that the date arithmetic can hold, the filtered listing returns, in
    ascending order and without repetition, exactly the keys with that
    prefix whose modification time lies strictly inside the chosen side
    of the threshold; it may well be empty.  It sends one listing
    request for every thousand keys under the prefix and changes nothing
    in the bucket. *)
Theorem aws_all_year_files_filters year min_old time_less_than w :
  in_timedelta (minutes min_old) ->
  representable (now w - minutes min_old) ->
  (exists key, is_Some (bucket w !! key) /\ String.prefix year key = true) ->
  exists files,
    aws_all_year_files year min_old time_less_than w
    = (Ok files, S3.listed year (page_count year (bucket w)) w)
    /\ StronglySorted String.le files /\ NoDup files
    /\ forall k, k ∈ files <->
         exists o, bucket w !! k = Some o /\ String.prefix year k = true
                   /\ (if time_less_than then now w - minutes min_old < LastModified o
                       else LastModified o < now w - minutes min_old).
Proof.
  intros Hd Hr (key & [o Hk] & Hp).
  pose proof (aws_all_year_files_elem year min_old time_less_than w) as Hel.
  rewrite aws_all_year_files_run in * by done. cbn [fst] in Hel.
  assert (Hin : (key, LastModified o) ∈ S3.matching year (bucket w))
    by (apply elem_of_matching; by exists o).
  destruct (S3.matching year (bucket w)) as [|e entries] eqn:E;
    [by apply elem_of_nil in Hin|].
  eexists. split; [reflexivity|].
  split; [apply sorted_spec|]. split; [apply sorted_spec|]. by apply Hel.
Qed.

Lemma aws_all_year_files_filters_witness :
  exists files,
    aws_all_year_files "year_average" 1 true World.stale_summary
    = (Ok files, S3.listed "year_average"
                   (page_count "year_average" (bucket World.stale_summary))
                   World.stale_summary)
    /\ StronglySorted String.le files /\ NoDup files
    /\ forall k, k ∈ files <->
         exists o, bucket World.stale_summary !! k = Some o
                   /\ String.prefix "year_average" k = true
                   /\ (now World.stale_summary - minutes 1 < LastModified o).
Proof.
  apply (aws_all_year_files_filters "year_average" 1 true World.stale_summary).
  - vm_compute. split; [discriminate|reflexivity].
  - vm_compute. split; discriminate.
  - exists "year_average/avg_1929.csv". split; [eexists|]; reflexivity.
Defined.

(** A threshold outside the dates that can be held makes the filtered
    listing raise on the first key it meets. *)
Example filtered_listing_overflows :
  fst (aws_all_year_files "year_average" 10000000000000 true World.stale_summary)
  = Raise OverflowError.
Proof. vm_compute. reflexivity. Qed.

(** The two modes of the filtered listing never return the same key, and
    an object modified exactly [min_old] minutes ago is returned by
    neither of them. *)
Theorem listing_modes_leave_out_threshold year min_old w files_new files_old :
  fst (aws_all_year_files year min_old true w) = Ok files_new ->
  fst (aws_all_year_files year min_old false w) = Ok files_old ->
  (forall k, k ∈ files_new -> k ∉ files_old)
  /\ (forall k o, bucket w !! k = Some o ->
        LastModified o = now w - minutes min_old ->
        (k ∉ files_new) /\ (k ∉ files_old)).
Proof.
  intros Hnew Hold.
  pose proof (aws_all_year_files_elem _ _ _ _ _ Hnew) as En.
  pose proof (aws_all_year_files_elem _ _ _ _ _ Hold) as Eo.
  split.
  - intros k Hn Ho. apply En in Hn as (o & Hk & _ & Hlt).
    apply Eo in Ho as (o' & Hk' & _ & Hgt). simplify_eq. lia.
  - intros k o Hk Ht. split; intros Hin.
    + apply En in Hin as (o' & Hk' & _ & Hlt). simplify_eq. lia.
    + apply Eo in Hin as (o' & Hk' & _ & Hgt). simplify_eq. lia.
Qed.

Lemma listing_modes_leave_out_threshold_witness :
  let w := World.make [("1929/01001099999.csv", World.obj World.good 40)] 100 in
  (forall k, k ∈ ([] : list string) -> k ∉ ([] : list string))
  /\ (forall k o, bucket w !! k = Some o ->
        LastModified o = now w - minutes 1 ->
        (k ∉ ([] : list string)) /\ (k ∉ ([] : list string))).
Proof.
  intros w.
  apply (listing_modes_leave_out_threshold "1929" 1 w [] []); reflexivity.
Defined.

(** ** Validator: the remaining verdicts *)

Section ValidatorMore.
Context `{Lib}.

Lemma for_each_skipped files_l st w :
  Forall (fun k => Str.len k <= 5 \/ Str.contains "year_average" k = true
                   \/ Str.contains "_data_error" k = true) files_l ->
  for_each files_l process_file st w = (Ok st, w).
Proof.
  induction 1 as [|k files_l Hk _ IH]; [done|].
  cbn [for_each]. unfold mbind, M_bind, process_file.
  destruct (Z.leb_spec (Str.len k) 5) as [_|Hlen]; [exact IH|].
  destruct Hk as [?|[-> | ->]]; [lia|exact IH|].
  rewrite orb_true_r. exact IH.
Qed.

(** Keys of at most five characters and keys of the summary and
    quarantine areas are passed over: a batch made of such keys sends
    no request to the store and changes nothing. *)
Theorem skipped_keys_send_no_request files_l w :
  Forall (fun k => Str.len k <= 5 \/ Str.contains "year_average" k = true
                   \/ Str.contains "_data_error" k = true) files_l ->
  process_year_files files_l w = (Ok tt, w).
Proof.
  intros Hskip. unfold process_year_files, mbind, M_bind.
  by rewrite (for_each_skipped files_l None w Hskip).
Qed.

Lemma unique_check_single k data df s1 s2 s3 s4 v1 v2 v3 v4 :
  read_csv spatial_dtype data = Ok df ->
  spatial_columns (strip_columns df) s1 s2 s3 s4 ->
  unique s1 = [v1] -> unique s2 = [v2] -> unique s3 = [v3] -> unique s4 = [v4] ->
  unique_values_spatial_check k data =
    Ok (if eq_X v1 || eq_X v2 || eq_X v3 || eq_X v4 then Some k else None).
Proof.
  intros Hread (H1 & H2 & H3 & H4 & _) U1 U2 U3 U4.
  unfold unique_values_spatial_check, unique_values_spatial_check_body.
  rewrite Hread. cbn [mbind result_bind]. rewrite H1, H2, H3, H4.
  cbn [mbind result_bind].
  rewrite (column_check_single s1 v1 U1), (column_check_single s2 v2 U2),
    (column_check_single s3 v3 U3), (column_check_single s4 v4 U4).
  cbn [mbind result_bind].
  by destruct (eq_X v1), (eq_X v2), (eq_X v3), (eq_X v4).
Qed.

Lemma clean_check_passes k data df s1 s2 s3 s4 v1 v2 v3 v4 :
  read_csv spatial_dtype data = Ok df ->
  spatial_columns (strip_columns df) s1 s2 s3 s4 ->
  unique s1 = [v1] -> unique s2 = [v2] -> unique s3 = [v3] -> unique s4 = [v4] ->
  v1 <> NaN -> v2 <> NaN -> v3 <> NaN -> v4 <> NaN ->
  csv_clean_spatial_check k data = Ok None.
Proof.
  intros Hread (H1 & H2 & H3 & H4 & _) U1 U2 U3 U4 N1 N2 N3 N4.
  unfold csv_clean_spatial_check. rewrite Hread. cbn [mbind result_bind].
  unfold any_column_differs. rewrite H1, H2, H3, H4. cbn [mbind result_bind].
  rewrite (not_all_eq_first_single s1 v1 U1), (not_all_eq_first_single s2 v2 U2),
    (not_all_eq_first_single s3 v3 U3), (not_all_eq_first_single s4 v4 U4).
  cbn [mbind result_bind].
  by rewrite !bool_decide_eq_false_2.
Qed.

(** A file whose four spatial columns each hold one value, none of
    them missing and none of them the text ["X"], passes both checks:
    it stays under its key with the same content, its metadata gains
    the [lastmodified] stamp and its modification time becomes the
    current time; nothing is written to the quarantine area. *)
Theorem valid_file_is_touched w st k year file_ o df s1 s2 s3 s4 v1 v2 v3 v4 :
  data_key k year file_ ->
  bucket w !! k = Some o ->
  read_csv spatial_dtype (Body o) = Ok df ->
  spatial_columns (strip_columns df) s1 s2 s3 s4 ->
  unique s1 = [v1] /\ unique s2 = [v2] /\ unique s3 = [v3] /\ unique s4 = [v4] ->
  v1 <> NaN /\ v2 <> NaN /\ v3 <> NaN /\ v4 <> NaN ->
  eq_X v1 || eq_X v2 || eq_X v3 || eq_X v4 = false ->
  process_file st k w =
    (Ok (Some None),
     {| bucket :=
          <[k := {| Body := Body o; LastModified := now w;
                    Metadata := <["lastmodified" := strftime (now w)]> (Metadata o) |}]>
            (bucket w);
        now := now w;
        calls := calls w ++ [GetObject k; GetObject k; HeadObject k;
                             CopyObject k k] |}).
Proof.
  intros Hkey Hk Hread Hcols (U1 & U2 & U3 & U4) (N1 & N2 & N3 & N4) HX.
  pose proof (unique_check_single k _ df s1 s2 s3 s4 v1 v2 v3 v4
                Hread Hcols U1 U2 U3 U4) as Hu. rewrite HX in Hu.
  pose proof (clean_check_passes k _ df s1 s2 s3 s4 v1 v2 v3 v4
                Hread Hcols U1 U2 U3 U4 N1 N2 N3 N4) as Hc.
  rewrite (process_file_data_key st k year file_ w Hkey).
  unfold validate, S3.get_object. rewrite Hk, Hu. cbn [truthy bucket record].
  rewrite Hk, Hc. cbn [truthy].
  unfold touch, mbind, M_bind, S3.metadata, S3.copy_from. cbn [bucket record now].
  rewrite Hk. cbn [bucket record now]. rewrite Hk.
  unfold record. cbn. by rewrite <- !app_assoc.
Qed.

Lemma process_file_flagged st k year file_ w o :
  data_key k year file_ ->
  bucket w !! k = Some o ->
  unique_values_spatial_check k (Body o) = Ok (Some k) ->
  let dest := error_key year (hd "" (Str.split "." file_)) "non_unique_spatial" in
  process_file st k w =
    (Ok st,
     {| bucket := delete k (<[dest := copied w o]>
                              (<["_data_error/" := marker w]> (bucket w)));
        now := now w;
        calls := calls w ++ GetObject k :: PutObject "_data_error/"
                            :: S3.copy_calls k dest o ++ [DeleteObject k] |}).
Proof.
  intros Hkey Hk Hcheck dest.
  pose proof (data_key_truthy _ _ _ Hkey) as Ht.
  pose proof (data_key_not_marker _ _ _ Hkey) as Hm.
  rewrite (process_file_data_key st k year file_ w Hkey).
  destruct Hkey as (_ & _ & _ & Hsplit).
  unfold validate, S3.get_object. rewrite Hk, Hcheck, Ht.
  set (w1 := record (GetObject k) (bucket w) w).
  rewrite (move_s3_file_ok w1 k year file_ "non_unique_spatial" o Hsplit)
    by (simpl; by rewrite lookup_insert_ne).
  simpl. fold dest. by rewrite <- app_assoc.
Qed.

(** The marker ["X"] that the uniqueness check uses for "more than one
    value" is also a possible cell: a file in which a spatial column
    holds the text ["X"] in every row has consistent spatial data, yet
    it is quarantined as [non_unique_spatial]. *)
Theorem constant_X_column_is_quarantined w st k year file_ o df s1 s2 s3 s4
    v1 v2 v3 v4 :
  data_key k year file_ ->
  bucket w !! k = Some o ->
  read_csv spatial_dtype (Body o) = Ok df ->
  spatial_columns (strip_columns df) s1 s2 s3 s4 ->
  unique s1 = [v1] /\ unique s2 = [v2] /\ unique s3 = [v3] /\ unique s4 = [v4] ->
  v1 = Str "X" \/ v2 = Str "X" \/ v3 = Str "X" \/ v4 = Str "X" ->
  let dest := error_key year (hd "" (Str.split "." file_)) "non_unique_spatial" in
  process_file st k w =
    (Ok st,
     {| bucket := delete k (<[dest := copied w o]>
                              (<["_data_error/" := marker w]> (bucket w)));
        now := now w;
        calls := calls w ++ GetObject k :: PutObject "_data_error/"
                            :: S3.copy_calls k dest o ++ [DeleteObject k] |}).
Proof.
  intros Hkey Hk Hread Hcols (U1 & U2 & U3 & U4) HX.
  apply process_file_flagged; [done..|].
  rewrite (unique_check_single k _ df s1 s2 s3 s4 v1 v2 v3 v4
             Hread Hcols U1 U2 U3 U4).
  destruct HX as [-> | [-> | [-> | ->]]]; cbn [eq_X String.eqb Ascii.eqb Bool.eqb];
    by rewrite ?orb_true_r.
Qed.

(** A file with a header and no rows makes the uniqueness check index
    an empty array: the batch stops at that file with [IndexError] and
    the file is neither touched nor quarantined. *)
Theorem header_only_file_aborts w k year file_ o df rest :
  data_key k year file_ ->
  bucket w !! k = Some o ->
  read_csv spatial_dtype (Body o) = Ok df ->
  getitem (strip_columns df) "STATION" = Ok (OneSeries []) ->
  process_year_files (k :: rest) w =
    (Raise IndexError, record (GetObject k) (bucket w) w).
Proof.
  intros Hkey Hk Hread Hst. unfold process_year_files.
  cbn [for_each]. unfold mbind at 1 2, M_bind at 1 2.
  rewrite (process_file_data_key None k year file_ w Hkey).
  unfold validate, S3.get_object. rewrite Hk.
  unfold unique_values_spatial_check, unique_values_spatial_check_body.
  rewrite Hread. cbn [mbind result_bind]. by rewrite Hst.
Qed.

End ValidatorMore.

(** ** Quarantine router: what it leaves alone *)

Lemma prefix_app s t : String.prefix s (s +:+ t) = true.
Proof.
  induction s as [|a s IH]; [by destruct t|].
  rewrite string_app_cons. simpl. by destruct (ascii_dec a a).
Qed.

Lemma error_key_prefix year number note :
  String.prefix "_data_error/" (error_key year number note) = true.
Proof. apply prefix_app. Qed.

Lemma move_s3_file_frame v note w k' :
  (forall f, v = Some f -> f <> k') ->
  String.prefix "_data_error/" k' = false ->
  bucket (snd (move_s3_file v note w)) !! k' = bucket w !! k'.
Proof.
  intros Hv Hp.
  assert (Hm : "_data_error/" <> k') by (intros <-; discriminate).
  destruct v as [f|]; [|simpl; by rewrite lookup_insert_ne].
  specialize (Hv f eq_refl).
  unfold move_s3_file, try_except, mbind, M_bind, S3.put_object, lift. simpl.
  destruct (Str.split "/" f) as [|a [|b [|c l]]]; simpl.
  - rewrite lookup_delete_ne by done. by rewrite lookup_insert_ne.
  - rewrite lookup_delete_ne by done. by rewrite lookup_insert_ne.
  - unfold S3.copy. simpl.
    destruct (<["_data_error/" := _]> (bucket w) !! f); simpl.
    + rewrite lookup_delete_ne by done.
      rewrite lookup_insert_ne
        by (intros <-; by rewrite error_key_prefix in Hp).
      by rewrite lookup_insert_ne.
    + by rewrite lookup_insert_ne.
  - by rewrite lookup_insert_ne.
Qed.

(** Whatever its outcome, a call of the router on a key leaves every
    object alone except that key and the objects of the quarantine area. *)
Theorem quarantine_leaves_other_keys f note w k' :
  k' <> f ->
  String.prefix "_data_error/" k' = false ->
  bucket (snd (move_s3_file (Some f) note w)) !! k' = bucket w !! k'.
Proof.
  intros Hne Hp. apply move_s3_file_frame; [|done]. by intros ? [= <-].
Qed.

Lemma quarantine_leaves_other_keys_witness :
  bucket (snd (move_s3_file (Some "1929/01002099999.csv") "missing_spatial"
                 World.year_1929)) !! "1929/01001099999.csv"
  = bucket World.year_1929 !! "1929/01001099999.csv".
Proof.
  apply (quarantine_leaves_other_keys "1929/01002099999.csv" "missing_spatial"
           World.year_1929 "1929/01001099999.csv"); [discriminate|reflexivity].
Defined.

(** The quarantine name keeps only the year, the file name up to its
    first dot, and the reason: when two keys of a year agree up to the
    first dot and are quarantined for the same reason, the second copy
    replaces the first, whose content is lost. *)
Theorem quarantine_names_collide w f1 f2 year file1 file2 note o1 o2 :
  Str.split "/" f1 = [year; file1] ->
  Str.split "/" f2 = [year; file2] ->
  hd "" (Str.split "." file1) = hd "" (Str.split "." file2) ->
  f1 <> f2 -> f1 <> "_data_error/" -> f2 <> "_data_error/" ->
  bucket w !! f1 = Some o1 -> bucket w !! f2 = Some o2 ->
  let dest := error_key year (hd "" (Str.split "." file1)) note in
  let w1 := snd (move_s3_file (Some f1) note w) in
  let r := move_s3_file (Some f2) note w1 in
  fst r = Ok tt
  /\ bucket (snd r) =
     <[dest := copied w o2]> (<["_data_error/" := marker w]>
                                (delete f1 (delete f2 (bucket w)))).
Proof.
  intros S1 S2 Hstem Hne M1 M2 H1 H2 dest w1 r.
  assert (D1 : dest <> f1) by (by apply error_key_fresh).
  assert (D2 : dest <> f2) by (unfold dest; rewrite Hstem; by apply error_key_fresh).
  assert (Dm : dest <> "_data_error/") by apply error_key_not_marker.
  subst r w1.
  rewrite (move_s3_file_ok w f1 year file1 note o1 S1)
    by (by rewrite lookup_insert_ne). cbn [snd]. fold dest.
  rewrite (move_s3_file_ok _ f2 year file2 note o2 S2).
  2:{ cbn [bucket]. rewrite lookup_insert_ne by done.
      rewrite lookup_delete_ne by done. rewrite lookup_insert_ne by done.
      by rewrite lookup_insert_ne. }
  split; [done|]. cbn [snd bucket now]. rewrite <- Hstem. fold dest.
  apply map_eq. intros k.
  destruct (decide (k = dest)) as [->|Kd]; [by map_lookup|].
  destruct (decide (k = f2)) as [->|K2]; [by map_lookup|].
  destruct (decide (k = f1)) as [->|K1]; [by map_lookup|].
  destruct (decide (k = "_data_error/")) as [->|Km]; by map_lookup.
Qed.

(** ** Validator: what a batch leaves alone *)

Section ValidatorFrame.
Context `{Lib}.

Lemma unique_check_result k data f :
  unique_values_spatial_check k data = Ok (Some f) -> f = k \/ f = "X".
Proof.
  unfold unique_values_spatial_check, unique_values_spatial_check_body.
  destruct (read_csv spatial_dtype data) as [df|e]; cbn [mbind result_bind];
    [|intros Hr; right; destruct e; congruence].
  set (records := strip_columns df).
  destruct (getitem records "STATION" ≫= column_unique_values_check) as [v1|e];
    cbn [mbind result_bind];
    [|intros Hr; right; destruct e; congruence].
  destruct (getitem records "LATITUDE" ≫= column_unique_values_check) as [v2|e];
    cbn [mbind result_bind];
    [|intros Hr; right; destruct e; congruence].
  destruct (getitem records "LONGITUDE" ≫= column_unique_values_check) as [v3|e];
    cbn [mbind result_bind];
    [|intros Hr; right; destruct e; congruence].
  destruct (getitem records "ELEVATION" ≫= column_unique_values_check) as [v4|e];
    cbn [mbind result_bind];
    [|intros Hr; right; destruct e; congruence].
  destruct (eq_X v1); [intros [= <-]; by left|].
  destruct (eq_X v2); [intros [= <-]; by left|].
  destruct (eq_X v3); [intros [= <-]; by left|].
  destruct (eq_X v4); [intros [= <-]; by left|done].
Qed.

Lemma clean_check_result k data v :
  csv_clean_spatial_check k data = Ok v -> v = None \/ v = Some k.
Proof.
  unfold csv_clean_spatial_check.
  destruct (read_csv spatial_dtype data) as [df|e]; cbn [mbind result_bind]; [|done].
  destruct (any_column_differs _ _) as [[]|e]; cbn [mbind result_bind];
    intros [= <-]; auto.
Qed.

Lemma touch_frame k w k' :
  k <> k' -> bucket (snd (touch k w)) !! k' = bucket w !! k'.
Proof.
  intros Hne. unfold touch, mbind, M_bind, S3.metadata, S3.copy_from.
  destruct (bucket w !! k) as [o|] eqn:Hk; cbn [bucket record]; [|done].
  rewrite Hk. cbn [snd bucket record]. by rewrite lookup_insert_ne.
Qed.

Lemma validate_frame k st w k' :
  k <> k' -> "X" <> k' -> String.prefix "_data_error/" k' = false ->
  stale_differs k' st ->
  bucket (snd (snd (validate k st w))) !! k' = bucket w !! k'
  /\ stale_differs k' (fst (snd (validate k st w)))
  /\ forall s, fst (validate k st w) = Ok s -> stale_differs k' s.
Proof.
  intros Hk' HX Hp Hst. unfold validate, S3.get_object.
  destruct (bucket w !! k) as [o|] eqn:Hk; [|done].
  destruct (unique_values_spatial_check k (Body o)) as [v|e] eqn:Hu; [|done].
  destruct (truthy v) eqn:Ht.
  - destruct v as [f|]; [|done].
    pose proof (move_s3_file_frame (Some f) "non_unique_spatial"
                  (record (GetObject k) (bucket w) w) k') as Hmove.
    destruct (move_s3_file (Some f) "non_unique_spatial" _) as [[u|e] w2];
      cbn [fst snd bucket record] in *.
    + split; [|split; [done|by intros s [= <-]]].
      apply Hmove; [|done]. intros ? [= <-].
      destruct (unique_check_result _ _ _ Hu) as [-> | ->]; done.
    + split; [|done].
      apply Hmove; [|done]. intros ? [= <-].
      destruct (unique_check_result _ _ _ Hu) as [-> | ->]; done.
  - cbn [bucket record]. rewrite Hk.
    destruct (csv_clean_spatial_check k (Body o)) as [v2|e] eqn:Hc; [|done].
    assert (Hv2 : stale_differs k' (Some v2)).
    { intros f [= ->]. by destruct (clean_check_result _ _ _ Hc) as [?|[= ->]]. }
    set (w2 := record (GetObject k) (bucket w) (record (GetObject k) (bucket w) w)).
    destruct (truthy v2).
    + pose proof (move_s3_file_frame v2 "missing_spatial" w2 k') as Hmove.
      destruct (move_s3_file v2 "missing_spatial" w2) as [[u|e] w3];
        cbn [fst snd bucket record] in *.
      * split; [|split; [done|by intros s [= <-]]].
        apply Hmove; [|done]. intros f ->. by apply Hv2.
      * split; [|done]. apply Hmove; [|done]. intros f ->. by apply Hv2.
    + pose proof (touch_frame k w2 k' Hk') as Htouch.
      destruct (touch k w2) as [[u|e] w3]; cbn [fst snd bucket record] in *.
      * split; [done|]. split; [done|]. by intros s [= <-].
      * done.
Qed.

Lemma process_file_frame k st w k' :
  k <> k' -> "X" <> k' -> String.prefix "_data_error/" k' = false ->
  stale_differs k' st ->
  bucket (snd (process_file st k w)) !! k' = bucket w !! k'
  /\ forall s, fst (process_file st k w) = Ok s -> stale_differs k' s.
Proof.
  intros Hk' HX Hp Hst. unfold process_file.
  destruct (Str.len k <=? 5); [split; [done|by intros s [= <-]]|].
  destruct (_ || _); [split; [done|by intros s [= <-]]|].
  destruct (validate_frame k st w k' Hk' HX Hp Hst) as (Hb & Hs & Hok).
  destruct (validate k st w) as [[s|e] [st' w']]; cbn [fst snd] in *.
  { split; [done|]. intros ? [= <-]. by apply Hok. }
  assert (Hhandler : forall note,
    let r := (v ← read_spatial_errors st'; move_s3_file v note;; mret st') w' in
    bucket (snd r) !! k' = bucket w !! k'
    /\ forall s, fst r = Ok s -> stale_differs k' s).
  { intros note. unfold mbind, M_bind. destruct st' as [v|]; cbn.
    - pose proof (move_s3_file_frame v note w' k') as Hmove.
      destruct (move_s3_file v note w') as [[u|e'] w2]; cbn in *;
        (split; [rewrite Hmove; [done| |done]; intros f ->; by apply Hs|]).
      + by intros s [= <-].
      + done.
    - done. }
  destruct e; try (split; [done|done]); apply Hhandler.
Qed.

Lemma for_each_process_frame files_l st w k' :
  k' ∉ files_l -> "X" <> k' -> String.prefix "_data_error/" k' = false ->
  stale_differs k' st ->
  bucket (snd (for_each files_l process_file st w)) !! k' = bucket w !! k'.
Proof.
  revert st w. induction files_l as [|k files_l IH]; intros st w Hin HX Hp Hst; [done|].
  apply not_elem_of_cons in Hin as [Hk Hin].
  cbn [for_each]. unfold mbind, M_bind.
  destruct (process_file_frame k st w k' ltac:(done) HX Hp Hst) as (Hb & Hs).
  destruct (process_file st k w) as [[s|e] w1]; cbn [fst snd] in *; [|done].
  rewrite IH; [done..|]. by apply Hs.
Qed.

(** Whatever happens to a batch, completed or aborted, it leaves alone
    every object whose key is not in the batch, is not in the
    quarantine area and is not ["X"]: summaries and the files of other
    batches are never modified by validation. *)
Theorem validation_leaves_other_keys files_l w k' :
  k' ∉ files_l -> k' <> "X" -> String.prefix "_data_error/" k' = false ->
  bucket (snd (process_year_files files_l w)) !! k' = bucket w !! k'.
Proof.
  intros Hin HX Hp. unfold process_year_files, mbind, M_bind.
  pose proof (for_each_process_frame files_l None w k' Hin
                ltac:(done) Hp ltac:(by intros ? [=])) as Hb.
  by destruct (for_each files_l process_file None w) as [[s|e] w1].
Qed.

End ValidatorFrame.

(** ** Aggregator: what it reads and writes *)

Section AggregatorMore.
Context `{Lib}.

Lemma add_site_frame content site w :
  bucket (snd (add_site content site w)) = bucket w
  /\ calls (snd (add_site content site w)) = (calls w ++ [GetObject site])%list.
Proof.
  unfold add_site, try_except, mbind, M_bind, S3.get_object, lift.
  destruct (bucket w !! site) as [o|]; [|done].
  destruct (read_csv [] (Body o)) as [df|e]; [|by destruct e].
  destruct (site_row df) as [row|e]; [done|by destruct e].
Qed.

Lemma for_each_add_site_frame sites content w :
  bucket (snd (for_each sites add_site content w)) = bucket w
  /\ exists n, calls (snd (for_each sites add_site content w))
               = (calls w ++ map GetObject (take n sites))%list.
Proof.
  revert content w. induction sites as [|site sites IH]; intros content w.
  - split; [done|]. exists 0%nat. by rewrite app_nil_r.
  - cbn [for_each]. unfold mbind, M_bind.
    destruct (add_site_frame content site w) as (Hb & Hc).
    destruct (add_site content site w) as [[content'|e] w1]; cbn [fst snd] in *.
    + destruct (IH content' w1) as (Hb1 & n & Hc1). split; [congruence|].
      exists (S n). rewrite Hc1, Hc, <- app_assoc. done.
    + split; [done|]. exists 1%nat. by rewrite Hc.
Qed.

Lemma calculate_year_csv_frame year finished calc_all w r w' :
  calculate_year_csv year finished calc_all w = (r, w') ->
  (forall e, r = Raise e -> bucket w' = bucket w)
  /\ (forall k', k' <> summary_key year -> bucket w' !! k' = bucket w !! k').
Proof.
  unfold calculate_year_csv.
  destruct (negb calc_all && bool_decide (summary_key year ∈ finished));
    [by intros [= <- <-]|].
  unfold mbind at 1, M_bind at 1. rewrite aws_year_files_run.
  destruct (S3.matching year (bucket w)) as [|p l]; [by intros [= <- <-]|].
  set (sites := filter _ _). set (w1 := S3.listed _ _ w).
  unfold mbind, M_bind.
  destruct (for_each_add_site_frame sites columns w1) as (Hb & _).
  destruct (for_each sites add_site columns w1) as [[content|e] w2];
    cbn [fst snd bucket record S3.listed] in *; intros [= <- <-];
    cbn [bucket record].
  - split; [done|]. intros k' Hk'. rewrite lookup_insert_ne by done. by rewrite Hb.
  - split; [done|]. intros k' _. by rewrite Hb.
Qed.

(** The aggregator writes one object at most, the summary of the year,
    and only after every file has been processed: when it raises, the
    bucket is as it was, and in any case every other key is unchanged. *)
Theorem aggregator_writes_only_summary year finished calc_all w :
  (forall e, fst (calculate_year_csv year finished calc_all w) = Raise e ->
             bucket (snd (calculate_year_csv year finished calc_all w)) = bucket w)
  /\ (forall k', k' <> summary_key year ->
        bucket (snd (calculate_year_csv year finished calc_all w)) !! k'
        = bucket w !! k').
Proof.
  destruct (calculate_year_csv year finished calc_all w) as [r w'] eqn:E.
  exact (calculate_year_csv_frame _ _ _ _ _ _ E).
Qed.

(** The requests of an aggregation are the listing of the year,
    reads of listed keys of the year that are longer than six
    characters, and the write of the summary: it never deletes or
    copies, and never reads a key outside the year. *)
Theorem aggregator_requests year finished calc_all w :
  exists cs,
    calls (snd (calculate_year_csv year finished calc_all w)) = (calls w ++ cs)%list
    /\ Forall (fun c =>
                 c = ListObjectsV2 year \/ c = PutObject (summary_key year)
                 \/ exists k, c = GetObject k /\ 6 < Str.len k
                              /\ String.prefix year k = true
                              /\ is_Some (bucket w !! k)) cs.
Proof.
  destruct (calculate_year_csv year finished calc_all w) as [r w'] eqn:E.
  revert E. unfold calculate_year_csv.
  destruct (negb calc_all && bool_decide (summary_key year ∈ finished)).
  { intros [= <- <-]. exists []. by rewrite app_nil_r. }
  unfold mbind at 1, M_bind at 1. rewrite aws_year_files_run.
  set (n0 := page_count year (bucket w)).
  assert (Hlists : Forall (fun c =>
                 c = ListObjectsV2 year \/ c = PutObject (summary_key year)
                 \/ exists k, c = GetObject k /\ 6 < Str.len k
                              /\ String.prefix year k = true
                              /\ is_Some (bucket w !! k))
              (replicate n0 (ListObjectsV2 year))).
  { apply Forall_replicate. by left. }
  destruct (S3.matching year (bucket w)) as [|p l] eqn:Em.
  { intros [= <- <-]. by exists (replicate n0 (ListObjectsV2 year)). }
  rewrite <- Em. set (sites := filter _ _). set (w1 := S3.listed _ _ w).
  assert (Hsites : Forall (fun k => 6 < Str.len k /\ String.prefix year k = true
                                    /\ is_Some (bucket w !! k)) sites).
  { apply Forall_forall. intros k Hk. apply list_elem_of_filter in Hk as [Hlen Hk].
    apply sorted_spec in Hk. apply elem_of_list_to_set, list_elem_of_fmap in Hk
      as ([k0 t] & -> & Hm).
    apply elem_of_matching in Hm as (o & Ho & _ & Hp). by eauto. }
  assert (Hreads : forall n, Forall (fun c =>
                 c = ListObjectsV2 year \/ c = PutObject (summary_key year)
                 \/ exists k, c = GetObject k /\ 6 < Str.len k
                              /\ String.prefix year k = true
                              /\ is_Some (bucket w !! k))
              (map GetObject (take n sites))).
  { intros n. apply Forall_fmap, Forall_take.
    eapply Forall_impl; [exact Hsites|]. intros k Hk. simpl.
    right; right; eexists; split; [reflexivity|exact Hk]. }
  unfold mbind, M_bind.
  destruct (for_each_add_site_frame sites columns w1) as (_ & n & Hc).
  destruct (for_each sites add_site columns w1) as [[content|e] w2];
    cbn [fst snd calls record] in *; intros [= <- <-]; cbn [snd calls record];
    rewrite Hc; subst w1; cbn [calls S3.listed].
  - exists (replicate n0 (ListObjectsV2 year) ++ map GetObject (take n sites)
            ++ [PutObject (summary_key year)])%list.
    split; [by rewrite <- !app_assoc|].
    apply Forall_app. split; [done|]. apply Forall_app. split; [apply Hreads|].
    constructor; [right; by left|constructor].
  - exists (replicate n0 (ListObjectsV2 year) ++ map GetObject (take n sites))%list.
    split; [by rewrite <- !app_assoc|]. apply Forall_app. split; [done|apply Hreads].
Qed.

(** A year without any object cannot be aggregated: unless the year is
    skipped, the failure of the listing passes through the aggregator
    and no summary is written. *)
Theorem aggregator_empty_year_raises year finished calc_all w :
  calc_all = true \/ summary_key year ∉ finished ->
  (forall key, is_Some (bucket w !! key) -> String.prefix year key = false) ->
  calculate_year_csv year finished calc_all w =
    (Raise (KeyError "Contents"), record (ListObjectsV2 year) (bucket w) w).
Proof.
  intros Hrun Hnone. unfold calculate_year_csv.
  assert (negb calc_all && bool_decide (summary_key year ∈ finished) = false) as ->.
  { destruct Hrun as [->|Hnot]; [done|].
    rewrite (bool_decide_eq_false_2 _ Hnot). by destruct calc_all. }
  unfold mbind, M_bind. rewrite aws_year_files_run.
  unfold page_count. by rewrite (matching_nil _ _ Hnone).
Qed.

End AggregatorMore.

(** ** Discovery of the year folders *)

Lemma split_two c s a b r :
  Str.split c s = a :: b :: r ->
  exists t, s = a +:+ String c t /\ nosep c a = true.
Proof.
  revert a. induction s as [|x s IH]; intros a; [done|].
  rewrite split_cons. destruct (Ascii.eqb x c) eqn:Ex.
  - intros [= <- _]. apply Ascii.eqb_eq in Ex as ->. by exists s.
  - pose proof (split_nonempty c s) as Hne.
    destruct (Str.split c s) as [|h tl] eqn:Es; [done|]. cbn [hd tail].
    intros [= <- ->]. destruct (IH h eq_refl) as (t & -> & Hh).
    exists t. split; [done|]. simpl. by rewrite Ex, Hh.
Qed.

Lemma entry_of_prefix key p :
  Delimited.entry_of key = Delimited.CommonPrefix p ->
  exists seg, p = seg +:+ "/" /\ nosep "/" seg = true
              /\ String.prefix p key = true.
Proof.
  unfold Delimited.entry_of.
  destruct (Str.split "/" key) as [|seg [|b r]] eqn:E; [done..|].
  intros [= <-]. destruct (split_two _ _ _ _ _ E) as (t & -> & Hseg).
  exists seg. split; [done|]. split; [done|].
  change (String "/" t) with ("/" +:+ t). rewrite <- string_app_assoc.
  apply prefix_app.
Qed.

Lemma string_app_inj_r s t u : s +:+ u = t +:+ u -> s = t.
Proof.
  revert t. induction s as [|a s IH]; intros [|b t] Heq; [done| | |].
  - apply (f_equal String.length) in Heq.
    rewrite !string_app_length in Heq. simpl in Heq. lia.
  - apply (f_equal String.length) in Heq.
    rewrite !string_app_length in Heq. simpl in Heq. lia.
  - rewrite !string_app_cons in Heq. injection Heq as -> Heq. by rewrite (IH t).
Qed.

Lemma hd_split_folder seg :
  nosep "/" seg = true -> hd "" (Str.split "/" (seg +:+ "/")) = seg.
Proof. intros Hseg. rewrite hd_split_app by done. apply string_app_nil_r. Qed.

Lemma fetch_aws_folders_run w :
  fetch_aws_folders w =
    (Ok (merge_sort String.le
           (filter (fun x => x <> "")
              (map (fun x => hd "" (Str.split "/" x))
                 (omap Delimited.common_prefix
                    (take S3.page_size
                       (remove_dups
                          (map Delimited.entry_of
                             (merge_sort String.le (map fst (map_to_list (bucket w))))))))))),
     record (ListObjectsV2 "") (bucket w) w).
Proof.
  unfold fetch_aws_folders, mbind, M_bind, Delimited.list_objects_v2.
  by destruct (omap Delimited.common_prefix _).
Qed.

Lemma elem_of_folders w f :
  f ∈ filter (fun x => x <> "")
        (map (fun x => hd "" (Str.split "/" x))
           (omap Delimited.common_prefix
              (remove_dups
                 (map Delimited.entry_of
                    (merge_sort String.le (map fst (map_to_list (bucket w))))))))
  <-> f <> "" /\ exists key, is_Some (bucket w !! key)
                             /\ Delimited.entry_of key = Delimited.CommonPrefix (f +:+ "/").
Proof.
  rewrite list_elem_of_filter, list_elem_of_fmap.
  split.
  - intros (Hf & p & -> & Hp). split; [done|].
    apply list_elem_of_omap in Hp as (e & He & Hcp).
    destruct e as [|p']; [done|]. injection Hcp as ->.
    apply elem_of_remove_dups, list_elem_of_fmap in He as (key & He & Hkey).
    rewrite merge_sort_Permutation in Hkey.
    apply list_elem_of_fmap in Hkey as ([k o] & -> & Hko).
    apply elem_of_map_to_list in Hko. exists k. split; [by exists o|].
    cbn [fst] in *. symmetry in He.
    destruct (entry_of_prefix _ _ He) as (seg & -> & Hseg & _).
    by rewrite hd_split_folder.
  - intros (Hf & key & [o Ho] & He). split; [done|].
    destruct (entry_of_prefix _ _ He) as (seg & Hp & Hseg & _).
    apply string_app_inj_r in Hp as ->.
    exists (seg +:+ "/"). split; [by rewrite hd_split_folder|].
    apply list_elem_of_omap. exists (Delimited.CommonPrefix (seg +:+ "/")).
    split; [|done]. apply elem_of_remove_dups, list_elem_of_fmap.
    exists key. split; [done|]. rewrite merge_sort_Permutation.
    apply list_elem_of_fmap. exists (key, o). split; [done|].
    by apply elem_of_map_to_list.
Qed.

Lemma prefix_app_inv s k : String.prefix s k = true -> exists t, k = s +:+ t.
Proof.
  revert k. induction s as [|a s IH]; intros k; [by exists k|].
  destruct k as [|b k]; [done|]. simpl.
  destruct (ascii_dec a b) as [->|]; [|done].
  intros Hp. destruct (IH k Hp) as (t & ->). by exists t.
Qed.

Lemma entry_of_folder key f :
  Delimited.entry_of key = Delimited.CommonPrefix (f +:+ "/")
  <-> nosep "/" f = true /\ String.prefix (f +:+ "/") key = true.
Proof.
  split.
  - intros He. destruct (entry_of_prefix _ _ He) as (seg & Hp & Hseg & Hpre).
    apply string_app_inj_r in Hp as ->. done.
  - intros (Hf & Hp). apply prefix_app_inv in Hp as (t & ->).
    unfold Delimited.entry_of. rewrite string_app_assoc.
    change ("/" +:+ t) with (String "/" t). rewrite split_app_sep by done.
    pose proof (split_nonempty "/" t). by destruct (Str.split "/" t).
Qed.

Lemma folders_of_truncated {A B} (P : B -> Prop) `{forall x, Decision (P x)}
    (g : A -> B) (h : Delimited.entry -> option A) n entries x :
  x ∈ filter P (map g (omap h (take n entries))) ->
  x ∈ filter P (map g (omap h entries)).
Proof.
  rewrite !list_elem_of_filter, !list_elem_of_fmap.
  intros (HP & y & -> & Hy). split; [done|]. exists y. split; [done|].
  apply list_elem_of_omap in Hy as (e & He & Hh). apply list_elem_of_omap.
  exists e. split; [|done]. apply elem_of_take in He as (i & Hi & _).
  by apply list_elem_of_lookup_2 in Hi.
Qed.

Lemma length_remove_dups {A} `{EqDecision A} (l : list A) :
  (length (remove_dups l) <= length l)%nat.
Proof.
  induction l as [|x l IH]; [done|]. simpl. case_decide; simpl; lia.
Qed.

(** The folder listing never raises, not even on an empty bucket, and
    changes nothing; the names it returns are in ascending order, are
    not empty, hold no separator, and each is the first segment of a key
    of the bucket. *)
Theorem fetch_aws_folders_sound w :
  exists folders,
    fetch_aws_folders w = (Ok folders, record (ListObjectsV2 "") (bucket w) w)
    /\ StronglySorted String.le folders
    /\ forall f, f ∈ folders ->
         f <> "" /\ nosep "/" f = true
         /\ exists key, is_Some (bucket w !! key)
                        /\ String.prefix (f +:+ "/") key = true.
Proof.
  rewrite fetch_aws_folders_run. eexists. split; [reflexivity|].
  split; [apply StronglySorted_merge_sort; apply _|].
  intros f Hf. rewrite merge_sort_Permutation in Hf.
  apply folders_of_truncated, elem_of_folders in Hf as (Hne & key & Hkey & He).
  apply entry_of_folder in He as (Hsep & Hp). eauto.
Qed.

(** When the bucket holds at most a thousand keys, the folder listing
    returns, once each, exactly the non-empty first segments of the keys
    that hold a separator. *)
Theorem fetch_aws_folders_complete w :
  (size (bucket w) <= 1000)%nat ->
  exists folders,
    fst (fetch_aws_folders w) = Ok folders
    /\ forall f, f ∈ folders <->
         f <> "" /\ nosep "/" f = true
         /\ exists key, is_Some (bucket w !! key)
                        /\ String.prefix (f +:+ "/") key = true.
Proof.
  intros Hsize. rewrite fetch_aws_folders_run. eexists.
  split; [reflexivity|]. intros f. rewrite merge_sort_Permutation.
  rewrite take_ge.
  2:{ etrans; [apply length_remove_dups|].
      rewrite length_map, merge_sort_Permutation, length_map, length_map_to_list.
      exact Hsize. }
  rewrite elem_of_folders. split.
  - intros (Hne & key & Hkey & He). apply entry_of_folder in He as (? & ?). eauto.
  - intros (Hne & Hsep & key & Hkey & Hp). split; [done|]. exists key.
    split; [done|]. by apply entry_of_folder.
Qed.

Example folders_of_store :
  fst (fetch_aws_folders Files.store) = Ok ["1929"; "1930"; "_data_error"; "year_average"].
Proof. vm_compute. reflexivity. Qed.

(** ** Validation, then discovery *)

Lemma aws_year_files_elem year w files :
  fst (aws_year_files year w) = Ok files ->
  forall k, k ∈ files <-> is_Some (bucket w !! k) /\ String.prefix year k = true.
Proof.
  rewrite aws_year_files_run. cbn [fst].
  destruct (S3.matching year (bucket w)) as [|e entries] eqn:E; [done|].
  rewrite <- E. intros [= <-] k.
  destruct (sorted_spec (list_to_set (map fst (S3.matching year (bucket w)))))
    as (_ & _ & ->).
  rewrite elem_of_list_to_set, list_elem_of_fmap. split.
  - intros ([k' t] & -> & Hm). apply elem_of_matching in Hm as (o & ? & _ & ?).
    split; [by exists o|done].
  - intros ([o Ho] & Hp). exists (k, LastModified o). split; [done|].
    apply elem_of_matching. by exists o.
Qed.

(** A file moved to the quarantine area is gone from every later
    listing of its year: the aggregator will not meet it. *)
Theorem quarantined_file_is_not_listed w f year file_ note o prefix files :
  Str.split "/" f = [year; file_] ->
  f <> "_data_error/" ->
  bucket w !! f = Some o ->
  fst (aws_year_files prefix (snd (move_s3_file (Some f) note w))) = Ok files ->
  f ∉ files.
Proof.
  intros Hsplit Hm Hf Hlist Hin.
  apply (aws_year_files_elem _ _ _ Hlist) in Hin as [[o' Ho'] _].
  rewrite (move_s3_file_ok w f year file_ note o Hsplit) in Ho'
    by (by rewrite lookup_insert_ne).
  cbn [snd bucket] in Ho'. by rewrite lookup_delete_eq in Ho'.
Qed.

Section TouchThenList.
Context `{Lib}.

(** The metadata update of a valid file sets its modification time to
    the time of the update: a listing made [dt] seconds later returns
    the file among the newer files exactly while [dt] is less than
    [min_old] minutes, and among the older files exactly once [dt] is
    more than that. *)
Theorem touched_file_listed_by_age w k o year min_old dt files_new files_old :
  bucket w !! k = Some o ->
  String.prefix year k = true ->
  let w' := elapse dt (snd (touch k w)) in
  fst (aws_all_year_files year min_old true w') = Ok files_new ->
  fst (aws_all_year_files year min_old false w') = Ok files_old ->
  (k ∈ files_new <-> dt < minutes min_old)
  /\ (k ∈ files_old <-> minutes min_old < dt).
Proof.
  intros Hk Hp w' Hnew Hold.
  assert (Ht : exists o', bucket w' !! k = Some o'
                          /\ LastModified o' = now w' - dt).
  { unfold w', touch, mbind, M_bind, S3.metadata, S3.copy_from.
    rewrite Hk. cbn [bucket record]. rewrite Hk. cbn [snd elapse bucket record now].
    rewrite lookup_insert_eq. eexists. split; [done|]. cbn [LastModified]. lia. }
  destruct Ht as (o' & Ho' & Hmod).
  rewrite (aws_all_year_files_elem _ _ _ _ _ Hnew k).
  rewrite (aws_all_year_files_elem _ _ _ _ _ Hold k).
  split; split.
  - intros (o'' & Ho'' & _ & Hlt). simplify_eq. lia.
  - intros Hlt. exists o'. split; [done|]. split; [done|]. lia.
  - intros (o'' & Ho'' & _ & Hlt). simplify_eq. lia.
  - intros Hlt. exists o'. split; [done|]. split; [done|]. lia.
Qed.

End TouchThenList.

(** ** The further properties on sample stores *)

Lemma skipped_keys_send_no_request_witness :
  process_year_files ["1929/"; "year_average/avg_1929.csv";
                      "_data_error/1929-01001099999-missing_spatial.csv"]
    Files.store = (Ok tt, Files.store).
Proof.
  apply (skipped_keys_send_no_request
           ["1929/"; "year_average/avg_1929.csv";
            "_data_error/1929-01001099999-missing_spatial.csv"] Files.store).
  apply Forall_cons; split; [left; by vm_compute|].
  apply Forall_cons; split; [right; left; reflexivity|].
  apply Forall_cons; split; [right; right; reflexivity|].
  apply Forall_nil_2.
Defined.

Lemma valid_file_is_touched_witness :
  let k := "1929/01001099999.csv" in
  let w := World.one k World.good in
  process_file None k w =
    (Ok (Some None),
     {| bucket :=
          <[k := {| Body := World.good; LastModified := now w;
                    Metadata := <["lastmodified" := strftime (now w)]> ∅ |}]>
            (bucket w);
        now := now w;
        calls := calls w ++ [GetObject k; GetObject k; HeadObject k;
                             CopyObject k k] |}).
Proof.
  intros k w.
  apply (valid_file_is_touched w None k "1929" "01001099999.csv"
           (World.obj World.good 0) (World.frame World.good)
           [Int 1001099999; Int 1001099999] [Str "70.93"; Str "70.93"]
           [Str "-8.66"; Str "-8.66"] [Str "9.0"; Str "9.0"]
           (Int 1001099999) (Str "70.93") (Str "-8.66") (Str "9.0")).
  - exact sample_data_key.
  - reflexivity.
  - vm_compute. reflexivity.
  - vm_compute. repeat split.
  - repeat split.
  - repeat split; discriminate.
  - reflexivity.
Defined.

Lemma constant_X_column_is_quarantined_witness :
  let k := "1929/01001099999.csv" in
  let w := World.one k Files.constant_x in
  let dest := "_data_error/1929-01001099999-non_unique_spatial.csv" in
  process_file None k w =
    (Ok None,
     {| bucket := delete k (<[dest := copied w (World.obj Files.constant_x 0)]>
                              (<["_data_error/" := marker w]> (bucket w)));
        now := now w;
        calls := calls w ++ [GetObject k; PutObject "_data_error/";
                             HeadObject k; CopyObject k dest; DeleteObject k] |}).
Proof.
  intros k w dest.
  apply (constant_X_column_is_quarantined w None k "1929" "01001099999.csv"
           (World.obj Files.constant_x 0) (World.frame Files.constant_x)
           [Int 1001099999; Int 1001099999] [Str "X"; Str "X"]
           [Str "-8.66"; Str "-8.66"] [Str "9.0"; Str "9.0"]
           (Int 1001099999) (Str "X") (Str "-8.66") (Str "9.0")).
  - exact sample_data_key.
  - reflexivity.
  - vm_compute. reflexivity.
  - vm_compute. repeat split.
  - repeat split.
  - right. left. reflexivity.
Defined.

Lemma header_only_file_aborts_witness :
  let k := "1929/01001099999.csv" in
  let w := World.one k Files.header_only in
  process_year_files [k; "1929/01002099999.csv"] w =
    (Raise IndexError, record (GetObject k) (bucket w) w).
Proof.
  intros k w.
  apply (header_only_file_aborts w k "1929" "01001099999.csv"
           (World.obj Files.header_only 0) (World.frame Files.header_only)
           ["1929/01002099999.csv"]).
  - exact sample_data_key.
  - reflexivity.
  - vm_compute. reflexivity.
  - vm_compute. reflexivity.
Defined.

Lemma quarantine_names_collide_witness :
  let w := World.make [("1929/0100.csv", World.obj World.good 0);
                       ("1929/0100.txt", World.obj "notes" 0)] 100 in
  let dest := error_key "1929" (hd "" (Str.split "." "0100.csv")) "missing_spatial" in
  let w1 := snd (move_s3_file (Some "1929/0100.csv") "missing_spatial" w) in
  let r := move_s3_file (Some "1929/0100.txt") "missing_spatial" w1 in
  fst r = Ok tt
  /\ bucket (snd r) =
     <[dest := copied w (World.obj "notes" 0)]>
       (<["_data_error/" := marker w]>
          (delete "1929/0100.csv" (delete "1929/0100.txt" (bucket w)))).
Proof.
  intros w.
  apply (quarantine_names_collide w "1929/0100.csv" "1929/0100.txt" "1929"
           "0100.csv" "0100.txt" "missing_spatial"
           (World.obj World.good 0) (World.obj "notes" 0));
    try reflexivity; discriminate.
Defined.

Lemma validation_leaves_other_keys_witness :
  bucket (snd (process_year_files ["1929/01001099999.csv"] Files.store))
    !! "year_average/avg_1929.csv"
  = bucket Files.store !! "year_average/avg_1929.csv".
Proof.
  apply (validation_leaves_other_keys ["1929/01001099999.csv"] Files.store
           "year_average/avg_1929.csv").
  - apply not_elem_of_cons. split; [discriminate|apply not_elem_of_nil].
  - discriminate.
  - reflexivity.
Defined.

Lemma aggregator_empty_year_raises_witness :
  calculate_year_csv "1930" [] false (World.one "1929/01001099999.csv" World.good)
  = (Raise (KeyError "Contents"),
     record (ListObjectsV2 "1930")
       (bucket (World.one "1929/01001099999.csv" World.good))
       (World.one "1929/01001099999.csv" World.good)).
Proof.
  apply (aggregator_empty_year_raises "1930" [] false
           (World.one "1929/01001099999.csv" World.good)).
  - right. apply not_elem_of_nil.
  - intros key [o Ho]. unfold World.one, World.make in Ho. simpl in Ho.
    destruct (decide (key = "1929/01001099999.csv")) as [->|Hne]; [reflexivity|].
    rewrite lookup_insert_ne in Ho by done. by rewrite lookup_empty in Ho.
Defined.

Lemma fetch_aws_folders_complete_witness :
  exists folders,
    fst (fetch_aws_folders Files.store) = Ok folders
    /\ forall f, f ∈ folders <->
         f <> "" /\ nosep "/" f = true
         /\ exists key, is_Some (bucket Files.store !! key)
                        /\ String.prefix (f +:+ "/") key = true.
Proof.
  apply (fetch_aws_folders_complete Files.store).
  apply Nat.leb_le. vm_compute. reflexivity.
Defined.

Lemma quarantined_file_is_not_listed_witness :
  "1929/01002099999.csv" ∉ ["1929/01001099999.csv"].
Proof.
  apply (quarantined_file_is_not_listed World.year_1929 "1929/01002099999.csv"
           "1929" "01002099999.csv" "empty_data_error" (World.obj "" 0) "1929"
           ["1929/01001099999.csv"]).
  - reflexivity.
  - discriminate.
  - reflexivity.
  - vm_compute. reflexivity.
Defined.

Lemma touched_file_listed_by_age_witness :
  ("1929/01001099999.csv" ∈ ([] : list string) <-> 61 < minutes 1)
  /\ ("1929/01001099999.csv" ∈ ["1929/01001099999.csv"] <-> minutes 1 < 61).
Proof.
  apply (touched_file_listed_by_age
           (World.one "1929/01001099999.csv" World.good)
           "1929/01001099999.csv" (World.obj World.good 0) "1929" 1 61
           [] ["1929/01001099999.csv"]).
  - reflexivity.
  - reflexivity.
  - vm_compute. reflexivity.
  - vm_compute. reflexivity.
Defined.

(** Listed straight after the update, the same file is among the newer
    files. *)
Example touched_file_listed_at_once :
  let w := snd (touch "1929/01001099999.csv"
                  (World.one "1929/01001099999.csv" World.good)) in
  fst (aws_all_year_files "1929" 1 true w) = Ok ["1929/01001099999.csv"]
  /\ fst (aws_all_year_files "1929" 1 false w) = Ok [].
Proof. vm_compute. done. Qed.
